(** * The OmniLogic climate entity (climate.py)

    A shallow embedding of [OmniLogicClimateEntity]: the read properties
    project the coordinator's device-state tree, the two commands send a
    request to the pool controller and then overwrite the cached telemetry.

    Python code runs in the monad [Py]: a computation takes the runtime
    state, returns a value or raises, and hands the state on.  A raised
    exception keeps every mutation made before it, as in Python. *)

From Stdlib Require Import ZArith Floats Ascii String.
From stdpp Require Import gmap strings list fin_maps pretty.

Set Warnings "-inexact-float,-clear-no-such-hyp".
Open Scope Z_scope.

(** ** Python values *)

(** Values held by attributes of the device records and by the values of
    the extended-attribute dict. *)
Inductive PyVal :=
  | PyNone
  | PyBool (b : bool)
  | PyInt (z : Z)
  | PyStr (s : string).

(** Truth value testing, as done by [if] and the conditional expression:
    [None], [False], zero and the empty string are false. *)
Definition py_truthy (v : PyVal) : bool :=
  match v with
  | PyNone => false
  | PyBool b => b
  | PyInt z => negb (z =? 0)
  | PyStr s => negb (bool_decide (s = ""))
  end.

Inductive Exn :=
  | KeyError (key : PyVal)
  | AttributeError (attr : string)
  | ValueError (msg : string)
  | OverflowError (msg : string)
  | ApiError (msg : string).

Inductive Outcome (A : Type) :=
  | Returns (a : A)
  | Raises (e : Exn).
Arguments Returns {A} a.
Arguments Raises {A} e.

(** A number of a service call.  The host validates the service data
    before it calls the entity: a temperature entry of the keyword
    arguments is an [int] or a [float] (binary64). *)
Inductive Number :=
  | NInt (z : Z)
  | NFloat (f : float).

(** [int(x)]: an [int] is returned as it is, a [float] is truncated towards
    zero; infinities raise [OverflowError] and NaN raises [ValueError]. *)
Definition float_trunc (f : float) : Outcome Z :=
  match Prim2SF f with
  | S754_zero _ => Returns 0
  | S754_infinity _ => Raises (OverflowError "cannot convert float infinity to integer")
  | S754_nan => Raises (ValueError "cannot convert float NaN to integer")
  | S754_finite s m e =>
      let mag := if 0 <=? e then Z.shiftl (Z.pos m) e else Z.shiftr (Z.pos m) (- e) in
      Returns (if s then - mag else mag)
  end.

Definition py_int (x : Number) : Outcome Z :=
  match x with
  | NInt z => Returns z
  | NFloat f => float_trunc f
  end.

(** [str.lower()] restricted to ASCII text, where it maps the letters A..Z
    to a..z and keeps every other character.  The entity is modelled over
    the full [str.lower] (see [lower] below); this function stands in for
    it in the sample installations, whose names are ASCII. *)
Definition lower_ascii (c : ascii) : ascii :=
  let n := N_of_ascii c in
  if ((65 <=? n) && (n <=? 90))%N then ascii_of_N (n + 32) else c.

Fixpoint ascii_lower (s : string) : string :=
  match s with
  | EmptyString => EmptyString
  | String c s' => String (lower_ascii c) (ascii_lower s')
  end.

(** ** Names of the host application (homeassistant) *)

Module HVACMode.
Inductive t := OFF | HEAT | COOL | HEAT_COOL | AUTO | DRY | FAN_ONLY.

(** The members are strings ([StrEnum]); [str] and [%s] give the value. *)
Definition value (m : t) : string :=
  match m with
  | OFF => "off" | HEAT => "heat" | COOL => "cool"
  | HEAT_COOL => "heat_cool" | AUTO => "auto" | DRY => "dry"
  | FAN_ONLY => "fan_only"
  end.

Global Instance eq_dec : EqDecision t.
Proof. solve_decision. Defined.
End HVACMode.

Module HVACAction.
Inductive t :=
  COOLING | DEFROSTING | DRYING | FAN | HEATING | IDLE | OFF | PREHEATING.

Global Instance eq_dec : EqDecision t.
Proof. solve_decision. Defined.
End HVACAction.

Module UnitOfTemperature.
Inductive t := CELSIUS | FAHRENHEIT | KELVIN.

Global Instance eq_dec : EqDecision t.
Proof. solve_decision. Defined.
End UnitOfTemperature.

Definition ATTR_TEMPERATURE : string := "temperature".
Definition STATE_ON : string := "on".
Definition STATE_OFF : string := "off".

(** ** Device records (pyomnilogic_local models, entity_index types)

    Only the attributes that climate.py reads or writes are kept.  The two
    telemetry attributes of the virtual heater that [set_telemetry]
    overwrites hold a [PyVal]: Python stores whatever value is assigned. *)

Module MSPVirtualHeater.
Record t := mk {
    name : string;
    min_temp : Z;
    max_temp : Z;
    solar_set_point : Z
  }.
End MSPVirtualHeater.

Module TelemetryVirtualHeater.
Record t := mk {
    current_set_point : PyVal;
    enabled : PyVal
  }.

Definition set_current_set_point (v : PyVal) (tel : t) : t :=
    mk v (enabled tel).
Definition set_enabled (v : PyVal) (tel : t) : t :=
    mk (current_set_point tel) v.
End TelemetryVirtualHeater.

Module MSPHeaterEquip.
Record t := mk {
    name : string;
    enabled : PyVal;
    bow_id : Z
  }.
End MSPHeaterEquip.

(** A member of the library's [HeaterState] enum, with the text its
    [pretty()] method returns.  The state of a heating element is modelled
    as such a member. *)
Record HeaterState := mkHeaterState {
  state_value : Z;
  pretty : string
}.

Module TelemetryHeater.
Record t := mk {
    state : HeaterState;
    temp : Z
  }.
End TelemetryHeater.

Module TelemetryBoW.
Record t := mk {
    water_temp : Z
  }.
End TelemetryBoW.

(** An entry of [coordinator.data]: the configuration and the telemetry of
    one device.  The constructor is the device type. *)
Inductive EntityIndexData :=
  | EntityIndexHeater
      (msp_config : MSPVirtualHeater.t) (telemetry : TelemetryVirtualHeater.t)
  | EntityIndexHeaterEquip
      (msp_config : MSPHeaterEquip.t) (telemetry : TelemetryHeater.t)
  | EntityIndexBoW (telemetry : TelemetryBoW.t).

(** ** The runtime state *)

(** Requests to [coordinator.omni_api]. *)
Inductive ApiCall :=
  | async_set_heater
      (bow_id system_id : Z) (temperature : Z) (unit : UnitOfTemperature.t)
  | async_set_heater_enable (bow_id system_id : Z) (enabled : bool).

(** The pool controller's answer to a request: it completes ([None]) or
    raises. *)
Definition OmniApi := ApiCall → option Exn.

Inductive LogLevel := DEBUG | INFO | WARNING | ERROR.

Record LogRecord := mkLog {
  level : LogLevel;
  message : string
}.

(** What the adapter can read or change: the coordinator's shared
    device-state tree and system configuration, the requests sent to the
    command API so far, the lines logged so far, the number of immediate
    state writes asked of the host, and the adapter's own [_hvac_mode]
    attribute ([None] until it is first assigned). *)
Record Runtime := mkRuntime {
  coordinator_data : gmap Z EntityIndexData;
  system_units : string;
  api_requests : list ApiCall;
  log_records : list LogRecord;
  ha_state_writes : nat;
  _hvac_mode : option HVACMode.t
}.

(** The attributes of the adapter fixed at construction. *)
Record OmniLogicClimateEntity := mkEntity {
  system_id : Z;
  bow_id : Z;
  heater_equipment_ids : list Z
}.

(** ** The monad of Python computations *)

Definition Py (A : Type) : Type := Runtime → Outcome A * Runtime.

Global Instance Py_ret : MRet Py := λ A a rt, (Returns a, rt).

Global Instance Py_bind : MBind Py := λ A B k c rt,
  match c rt with
  | (Returns a, rt') => k a rt'
  | (Raises e, rt') => (Raises e, rt')
  end.

Definition raise {A} (e : Exn) : Py A := λ rt, (Raises e, rt).

Definition get_runtime : Py Runtime := λ rt, (Returns rt, rt).

Definition put_runtime (rt : Runtime) : Py unit := λ _, (Returns tt, rt).

Definition outcome {A} (c : Py A) (rt : Runtime) : Outcome A := (c rt).1.

Definition final {A} (c : Py A) (rt : Runtime) : Runtime := (c rt).2.

Definition set_coordinator_data (d : gmap Z EntityIndexData) (rt : Runtime) : Runtime :=
  mkRuntime d (system_units rt) (api_requests rt) (log_records rt)
    (ha_state_writes rt) (_hvac_mode rt).

Definition add_api_request (c : ApiCall) (rt : Runtime) : Runtime :=
  mkRuntime (coordinator_data rt) (system_units rt) (api_requests rt ++ [c])
    (log_records rt) (ha_state_writes rt) (_hvac_mode rt).

Definition add_log_record (r : LogRecord) (rt : Runtime) : Runtime :=
  mkRuntime (coordinator_data rt) (system_units rt) (api_requests rt)
    (log_records rt ++ [r]) (ha_state_writes rt) (_hvac_mode rt).

Definition add_ha_state_write (rt : Runtime) : Runtime :=
  mkRuntime (coordinator_data rt) (system_units rt) (api_requests rt)
    (log_records rt) (S (ha_state_writes rt)) (_hvac_mode rt).

Definition set__hvac_mode (m : HVACMode.t) (rt : Runtime) : Runtime :=
  mkRuntime (coordinator_data rt) (system_units rt) (api_requests rt)
    (log_records rt) (ha_state_writes rt) (Some m).

(** [coordinator.data[system_id]]: a missing key raises [KeyError]. *)
Definition coordinator_data_item (system_id : Z) : Py EntityIndexData :=
  rt ← get_runtime;
  match coordinator_data rt !! system_id with
  | Some d => mret d
  | None => raise (KeyError (PyInt system_id))
  end.

(** [await coordinator.omni_api.<call>]: the request is issued, then the
    coroutine completes or raises what the API raises. *)
Definition await_omni_api (omni_api : OmniApi) (c : ApiCall) : Py unit :=
  rt ← get_runtime;
  put_runtime (add_api_request c rt);;
  match omni_api c with
  | None => mret tt
  | Some e => raise e
  end.

(** [_LOGGER.error(msg)] *)
Definition _LOGGER_error (msg : string) : Py unit :=
  rt ← get_runtime;
  put_runtime (add_log_record (mkLog ERROR msg) rt).

(** [self.async_write_ha_state()]: the host is asked to write the entity
    state at once. *)
Definition async_write_ha_state : Py unit :=
  rt ← get_runtime;
  put_runtime (add_ha_state_write rt).

(** Reading the attributes of a device record of the wrong type raises
    [AttributeError] ([cast] does nothing at run time). *)
Definition as_heater (d : EntityIndexData)
  : Py (MSPVirtualHeater.t * TelemetryVirtualHeater.t) :=
  match d with
  | EntityIndexHeater cfg tel => mret (cfg, tel)
  | _ => raise (AttributeError "EntityIndexHeater")
  end.

Definition as_heater_equip (d : EntityIndexData)
  : Py (MSPHeaterEquip.t * TelemetryHeater.t) :=
  match d with
  | EntityIndexHeaterEquip cfg tel => mret (cfg, tel)
  | _ => raise (AttributeError "EntityIndexHeaterEquip")
  end.

Definition as_bow (d : EntityIndexData) : Py TelemetryBoW.t :=
  match d with
  | EntityIndexBoW tel => mret tel
  | _ => raise (AttributeError "TelemetryBoW")
  end.

(** ** The base class OmniLogicEntity (entity.py) *)

Module OmniLogicEntity.

(** Modelled from the spec: the [data] property of entity.py, which is not
    part of the sources.  The adapter reads the current device state from
    the shared state tree, keyed by its integer system id; here the record
    is that of a virtual heater. *)
Definition data (self : OmniLogicClimateEntity)
  : Py (MSPVirtualHeater.t * TelemetryVirtualHeater.t) :=
  d ← coordinator_data_item (system_id self);
  as_heater d.

(** Modelled from the spec: [get_system_config().units] of entity.py, the
    system-level configuration value that says metric or imperial. *)
Definition get_system_config_units : Py string :=
  rt ← get_runtime;
  mret (system_units rt).

(** Modelled from the spec: [get_telemetry_by_systemid] of entity.py, the
    telemetry of the device with the given id in the shared state tree;
    the caller casts it to the telemetry of a body of water. *)
Definition get_telemetry_by_systemid (system_id : Z) : Py TelemetryBoW.t :=
  d ← coordinator_data_item system_id;
  as_bow d.

(** Modelled from the spec: the value the enabled flag of the telemetry
    holds after an assignment, which entity.py decides.  The commands pass
    the texts "yes" and "no", the controller's spelling of the flag, and
    the spec has the local enabled flag truthy after "heat" and falsy after
    "off": the two texts are stored as [True] and [False].  Any other
    value is stored as given. *)
Definition enabled_flag (value : PyVal) : PyVal :=
  match value with
  | PyStr text =>
      if bool_decide (text = "yes") then PyBool true
      else if bool_decide (text = "no") then PyBool false
      else value
  | _ => value
  end.

(** Modelled from the spec: assigning one attribute of the virtual
    heater's telemetry record.  A set-point is stored as given, the
    enabled flag as [enabled_flag] has it. *)
Definition setattr_telemetry (tel : TelemetryVirtualHeater.t)
    (key : string) (value : PyVal) : Py TelemetryVirtualHeater.t :=
  if bool_decide (key = "current_set_point")
  then mret (TelemetryVirtualHeater.set_current_set_point value tel)
  else if bool_decide (key = "enabled")
  then mret (TelemetryVirtualHeater.set_enabled (enabled_flag value) tel)
  else raise (AttributeError key).

(** Modelled from the spec: [set_telemetry] of entity.py, which overwrites
    the corresponding fields in the locally cached telemetry record of the
    adapter's device, one entry of the dict after the other. *)
Fixpoint set_telemetry (self : OmniLogicClimateEntity)
    (new_telemetry : list (string * PyVal)) : Py unit :=
  match new_telemetry with
  | [] => mret tt
  | (key, value) :: rest =>
      '(cfg, tel) ← data self;
      tel' ← setattr_telemetry tel key value;
      rt ← get_runtime;
      put_runtime
        (set_coordinator_data
           (<[system_id self := EntityIndexHeater cfg tel']> (coordinator_data rt)) rt);;
      set_telemetry self rest
  end.

(** Modelled from the spec: the [extra_state_attributes] of entity.py.  The
    spec names no extended attribute of the base class: with no heating
    element the dict holds the solar set-point only. *)
Definition extra_state_attributes : gmap string PyVal := ∅.

End OmniLogicEntity.

(** ** OmniLogicClimateEntity *)

(** [d1 | d2] on dicts: the entries of both, those of [d2] win. *)
Definition dict_or (d1 d2 : gmap string PyVal) : gmap string PyVal := d2 ∪ d1.

(** [kwargs[key]]: a missing key raises [KeyError]. *)
Definition kwargs_item (kwargs : gmap string Number) (key : string) : Py Number :=
  match kwargs !! key with
  | Some v => mret v
  | None => raise (KeyError (PyStr key))
  end.

Definition lift_outcome {A} (o : Outcome A) : Py A := λ rt, (o, rt).

(** [temperature_unit]: Celsius if the system's units are "Metric",
    Fahrenheit otherwise.  [str] of the member is its value. *)
Definition temperature_unit : Py UnitOfTemperature.t :=
  units ← OmniLogicEntity.get_system_config_units;
  mret (if bool_decide (units = "Metric")
        then UnitOfTemperature.CELSIUS else UnitOfTemperature.FAHRENHEIT).

(** [min_temp], [max_temp]: [self.data.msp_config.min_temp] and
    [.max_temp]. *)
Definition min_temp (self : OmniLogicClimateEntity) : Py Z :=
  '(msp_config, _) ← OmniLogicEntity.data self;
  mret (MSPVirtualHeater.min_temp msp_config).

Definition max_temp (self : OmniLogicClimateEntity) : Py Z :=
  '(msp_config, _) ← OmniLogicEntity.data self;
  mret (MSPVirtualHeater.max_temp msp_config).

(** [target_temperature]: [self.data.telemetry.current_set_point]. *)
Definition target_temperature (self : OmniLogicClimateEntity) : Py PyVal :=
  '(_, telemetry) ← OmniLogicEntity.data self;
  mret (TelemetryVirtualHeater.current_set_point telemetry).

(** [current_temperature]: the water temperature of the body of water
    [self.bow_id], or [None] when it is -1. *)
Definition current_temperature (self : OmniLogicClimateEntity) : Py (option Z) :=
  bow ← OmniLogicEntity.get_telemetry_by_systemid (bow_id self);
  let current_temp := TelemetryBoW.water_temp bow in
  mret (if bool_decide (current_temp ≠ -1) then Some current_temp else None).

(** [hvac_mode]:
    [HVACMode.HEAT if self.data.telemetry.enabled else HVACMode.OFF]. *)
Definition hvac_mode (self : OmniLogicClimateEntity) : Py HVACMode.t :=
  '(_, telemetry) ← OmniLogicEntity.data self;
  mret (if py_truthy (TelemetryVirtualHeater.enabled telemetry)
        then HVACMode.HEAT else HVACMode.OFF).

(** [hvac_action]: HEATING if [self.hvac_mode == HVACMode.HEAT], else OFF. *)
Definition hvac_action (self : OmniLogicClimateEntity) : Py HVACAction.t :=
  mode ← hvac_mode self;
  if bool_decide (mode = HVACMode.HEAT)
  then mret HVACAction.HEATING
  else mret HVACAction.OFF.

(** [current_operation]: "on" if the enabled flag is true, else "off". *)
Definition current_operation (self : OmniLogicClimateEntity) : Py string :=
  '(_, telemetry) ← OmniLogicEntity.data self;
  mret (if py_truthy (TelemetryVirtualHeater.enabled telemetry)
        then STATE_ON else STATE_OFF).

(** [async_set_temperature] with keyword arguments.  The arguments of the
    request are evaluated from left to right before the call:
    [kwargs[ATTR_TEMPERATURE]], [int] of it, then [self.temperature_unit].
    After the awaited call the set-point is computed again and written
    with [set_telemetry]. *)
Definition async_set_temperature (omni_api : OmniApi)
    (self : OmniLogicClimateEntity) (kwargs : gmap string Number) : Py unit :=
  v ← kwargs_item kwargs ATTR_TEMPERATURE;
  temperature ← lift_outcome (py_int v);
  unit ← temperature_unit;
  await_omni_api omni_api
    (async_set_heater (bow_id self) (system_id self) temperature unit);;
  v' ← kwargs_item kwargs ATTR_TEMPERATURE;
  set_point ← lift_outcome (py_int v');
  OmniLogicEntity.set_telemetry self [("current_set_point", PyInt set_point)].

(** [async_set_hvac_mode(hvac_mode)], [hvac_mode] a member of [HVACMode].
    Each of the two recognised branches assigns [self._hvac_mode], awaits
    the request, writes the enabled flag ("yes" or "no") and ends with
    [self.async_write_ha_state()]; the last branch logs and returns. *)
Definition async_set_hvac_mode (omni_api : OmniApi)
    (self : OmniLogicClimateEntity) (hvac_mode : HVACMode.t) : Py unit :=
  if bool_decide (hvac_mode = HVACMode.HEAT) then
    rt ← get_runtime;
    put_runtime (set__hvac_mode HVACMode.HEAT rt);;
    await_omni_api omni_api
      (async_set_heater_enable (bow_id self) (system_id self) true);;
    OmniLogicEntity.set_telemetry self [("enabled", PyStr "yes")];;
    async_write_ha_state
  else if bool_decide (hvac_mode = HVACMode.OFF) then
    rt ← get_runtime;
    put_runtime (set__hvac_mode HVACMode.OFF rt);;
    await_omni_api omni_api
      (async_set_heater_enable (bow_id self) (system_id self) false);;
    OmniLogicEntity.set_telemetry self [("enabled", PyStr "no")];;
    async_write_ha_state
  else
    _LOGGER_error ("Unrecognized hvac mode: " +:+ HVACMode.value hvac_mode).

(** The five entries one heating element adds to the extended attributes.
    A dict display inserts its entries from left to right. *)
Definition heater_equipment_attributes (prefix : string) (system_id : Z)
    (msp_config : MSPHeaterEquip.t) (telemetry : TelemetryHeater.t)
  : gmap string PyVal :=
  <[prefix +:+ "_sensor_temp" := PyInt (TelemetryHeater.temp telemetry)]>
  (<[prefix +:+ "_state" := PyStr (pretty (TelemetryHeater.state telemetry))]>
  (<[prefix +:+ "_bow_id" := PyInt (MSPHeaterEquip.bow_id msp_config)]>
  (<[prefix +:+ "_system_id" := PyInt system_id]>
  (<[prefix +:+ "_enabled" := MSPHeaterEquip.enabled msp_config]> ∅)))).

Section StrLower.

(** Python's [str.lower], the Unicode-aware lower-casing of the run time:
    a function from texts to texts, of which nothing more is assumed.
    Every definition and theorem below that lower-cases a name holds for
    whatever this function is. *)
Variable lower : string → string.

(** [f"omni_heater_{name.lower()}"] *)
Definition heater_prefix (name : string) : string :=
  "omni_heater_" +:+ lower name.

(** The loop over [self.heater_equipment_ids]. *)
Fixpoint extra_state_attributes_loop (ids : list Z)
    (extra_state_attributes : gmap string PyVal) : Py (gmap string PyVal) :=
  match ids with
  | [] => mret extra_state_attributes
  | system_id :: rest =>
      d ← coordinator_data_item system_id;
      '(msp_config, telemetry) ← as_heater_equip d;
      let prefix := heater_prefix (MSPHeaterEquip.name msp_config) in
      extra_state_attributes_loop rest
        (dict_or extra_state_attributes
           (heater_equipment_attributes prefix system_id msp_config telemetry))
  end.

(** [extra_state_attributes]: the attributes of the base class, the solar
    set-point, then the entries of every id of [heater_equipment_ids]. *)
Definition extra_state_attributes (self : OmniLogicClimateEntity)
  : Py (gmap string PyVal) :=
  '(msp_config, _) ← OmniLogicEntity.data self;
  extra_state_attributes_loop (heater_equipment_ids self)
    (dict_or OmniLogicEntity.extra_state_attributes
       {[ "solar_set_point" := PyInt (MSPVirtualHeater.solar_set_point msp_config) ]}).

(** ** Vocabulary of the statements *)

(** A computation that only reads: whatever it returns or raises, the
    runtime state it hands on is the one it was given. *)
Definition read_only {A} (c : Py A) : Prop := ∀ rt, (c rt).2 = rt.

(** The unit sent with a set-point: what [temperature_unit] returns. *)
Definition unit_of (rt : Runtime) : UnitOfTemperature.t :=
  if bool_decide (system_units rt = "Metric")
  then UnitOfTemperature.CELSIUS else UnitOfTemperature.FAHRENHEIT.

(** The branch of [async_set_hvac_mode] taken for HEAT ([enable] true, text
    "yes") and for OFF ([enable] false, text "no"). *)
Definition enable_branch (omni_api : OmniApi) (self : OmniLogicClimateEntity)
    (mode : HVACMode.t) (enable : bool) (text : string) : Py unit :=
  rt ← get_runtime;
  put_runtime (set__hvac_mode mode rt);;
  await_omni_api omni_api
    (async_set_heater_enable (bow_id self) (system_id self) enable);;
  OmniLogicEntity.set_telemetry self [("enabled", PyStr text)];;
  async_write_ha_state.

(** The state of the entity a command may change: the cached device-state
    tree and the adapter's own mutable attribute. *)
Definition entity_state (rt : Runtime)
  : gmap Z EntityIndexData * option HVACMode.t :=
  (coordinator_data rt, _hvac_mode rt).

(** A command leaves the entity state as it was whenever it raises. *)
Definition atomic_on_error (cmd : Py unit) (rt : Runtime) : Prop :=
  ∀ e, outcome cmd rt = Raises e → entity_state (final cmd rt) = entity_state rt.

(** The endings of the five keys of a heating element, in the order of the
    dict display. *)
Definition attribute_suffixes : list string :=
  ["_enabled"; "_system_id"; "_bow_id"; "_state"; "_sensor_temp"].

(** The keys a heating element of the given name contributes. *)
Definition attribute_keys (name : string) : list string :=
  (λ suffix, heater_prefix name +:+ suffix) <$> attribute_suffixes.

Definition is_heater_equip (tree : gmap Z EntityIndexData) (system_id : Z) : Prop :=
  ∃ msp_config telemetry,
    tree !! system_id = Some (EntityIndexHeaterEquip msp_config telemetry).

(** The configured name of a heating element of the tree. *)
Definition equipment_name (tree : gmap Z EntityIndexData) (system_id : Z) : string :=
  match tree !! system_id with
  | Some (EntityIndexHeaterEquip msp_config _) => MSPHeaterEquip.name msp_config
  | _ => ""
  end.

(** The entries a heating element of the tree contributes. *)
Definition equipment_attributes (tree : gmap Z EntityIndexData) (system_id : Z)
  : gmap string PyVal :=
  match tree !! system_id with
  | Some (EntityIndexHeaterEquip msp_config telemetry) =>
      heater_equipment_attributes
        (heater_prefix (MSPHeaterEquip.name msp_config))
        system_id msp_config telemetry
  | _ => ∅
  end.

(** The dict after the loop over the given ids, starting from [extra]. *)
Definition merged_attributes (tree : gmap Z EntityIndexData) (ids : list Z)
    (extra : gmap string PyVal) : gmap string PyVal :=
  foldl (λ acc system_id, dict_or acc (equipment_attributes tree system_id))
    extra ids.

(** All keys contributed by the given ids. *)
Definition all_attribute_keys (tree : gmap Z EntityIndexData) (ids : list Z)
  : list string :=
  ids ≫= λ system_id, attribute_keys (equipment_name tree system_id).

(** One group of five keys for every configured element, each with the
    element's own values: the dict has the solar set-point and five more
    keys for each element, and holds the entries of every element. *)
Definition one_group_per_element (tree : gmap Z EntityIndexData)
    (ids : list Z) (attrs : gmap string PyVal) : Prop :=
  size attrs = (1 + 5 * length ids)%nat ∧
  ∀ i, i ∈ ids → equipment_attributes tree i ⊆ attrs.

(** The keys of any two different configured elements are disjoint. *)
Definition groups_disjoint (tree : gmap Z EntityIndexData) (ids : list Z) : Prop :=
  ∀ i j k, i ∈ ids → j ∈ ids → i ≠ j →
    k ∈ attribute_keys (equipment_name tree i) →
    k ∉ attribute_keys (equipment_name tree j).

(** ** A sample installation *)

Definition pool_heater : OmniLogicClimateEntity := mkEntity 4 1 [5; 6].

Definition pool_tree : gmap Z EntityIndexData :=
  <[1 := EntityIndexBoW (TelemetryBoW.mk 27)]>
  (<[4 := EntityIndexHeater (MSPVirtualHeater.mk "Heater" 18 40 30)
            (TelemetryVirtualHeater.mk (PyInt 28) (PyBool true))]>
  (<[5 := EntityIndexHeaterEquip (MSPHeaterEquip.mk "Gas Heater" (PyStr "yes") 1)
            (TelemetryHeater.mk (mkHeaterState 1 "On") 31)]>
  (<[6 := EntityIndexHeaterEquip (MSPHeaterEquip.mk "SOLAR" (PyStr "no") 1)
            (TelemetryHeater.mk (mkHeaterState 0 "Off") 25)]> ∅))).

Definition pool : Runtime := mkRuntime pool_tree "Metric" [] [] 0 None.

Definition api_ok : OmniApi := λ _, None.

Definition api_down : OmniApi := λ _, Some (ApiError "timeout").

(** An installation with two heating elements whose names differ in case
    only. *)
Definition twin_tree : gmap Z EntityIndexData :=
  <[6 := EntityIndexHeaterEquip (MSPHeaterEquip.mk "gas heater" (PyStr "no") 1)
           (TelemetryHeater.mk (mkHeaterState 0 "Off") 25)]> pool_tree.

Definition twin_pool : Runtime := mkRuntime twin_tree "Metric" [] [] 0 None.

(** ** Platform setup *)

(** The members of the library's [OmniType] that tell the device records
    apart. *)
Inductive OmniType := BOW | VIRT_HEATER | HEATER_EQUIP.

Global Instance OmniType_eq_dec : EqDecision OmniType.
Proof. solve_decision. Defined.

(** [data.msp_config.omni_type] *)
Definition omni_type (data : EntityIndexData) : OmniType :=
  match data with
  | EntityIndexHeater _ _ => VIRT_HEATER
  | EntityIndexHeaterEquip _ _ => HEATER_EQUIP
  | EntityIndexBoW _ => BOW
  end.

(** [data.msp_config.name] (the record of a body of water keeps no
    configuration here). *)
Definition msp_config_name (data : EntityIndexData) : string :=
  match data with
  | EntityIndexHeater msp_config _ => MSPVirtualHeater.name msp_config
  | EntityIndexHeaterEquip msp_config _ => MSPHeaterEquip.name msp_config
  | EntityIndexBoW _ => ""
  end.

(** A value of the dict [all_heaters]: a device record together with the
    [msp_config.system_id] attribute, which the device records above leave
    out. *)
Record IndexedEntity := mkIndexed {
  msp_system_id : Z;
  entity_data : EntityIndexData
}.

(** [_LOGGER.debug(msg)] *)
Definition _LOGGER_debug (msg : string) : Py unit :=
  rt ← get_runtime;
  put_runtime (add_log_record (mkLog DEBUG msg) rt).

(** [__init__]: [context] is handed to the base class and is the system id
    of the adapter, the list of heater equipment ids is stored.  [bow_id]
    is the parent body of water the base class records for the adapter. *)
Definition OmniLogicClimateEntity__init__ (bow_id : Z) (context : Z)
    (heater_equipment_ids : list Z) : OmniLogicClimateEntity :=
  mkEntity context bow_id heater_equipment_ids.

(** The dict comprehension [virtual_heater] and the list comprehension
    [heater_equipment_ids] over [all_heaters.items()]. *)
Definition virtual_heater (all_heaters : list (Z * IndexedEntity))
  : list (Z * IndexedEntity) :=
  filter (λ item, omni_type (entity_data item.2) = VIRT_HEATER) all_heaters.

Definition heater_equipment_ids_of (all_heaters : list (Z * IndexedEntity))
  : list Z :=
  (filter (λ item, omni_type (entity_data item.2) = HEATER_EQUIP) all_heaters).*1.

(** The loop over [virtual_heater.items()]: a debug line, then one more
    entity. *)
Fixpoint async_setup_entry_loop (bow_id_of : Z → Z)
    (items : list (Z * IndexedEntity)) (heater_equipment_ids : list Z)
    (entities : list OmniLogicClimateEntity)
  : Py (list OmniLogicClimateEntity) :=
  match items with
  | [] => mret entities
  | (system_id, vheater) :: rest =>
      _LOGGER_debug
        ("Configuring climate heater with ID: "
           +:+ stdpp.pretty.pretty (msp_system_id vheater)
           +:+ ", Name: " +:+ msp_config_name (entity_data vheater));;
      async_setup_entry_loop bow_id_of rest heater_equipment_ids
        (entities ++
           [OmniLogicClimateEntity__init__ (bow_id_of system_id) system_id
              heater_equipment_ids])
  end.

(** [async_setup_entry].  [all_heaters] are the items, in dict order, of
    what [get_entities_of_hass_type(coordinator.data, "climate")] returns;
    the result is the list handed to [async_add_entities]. *)
Definition async_setup_entry (bow_id_of : Z → Z)
    (all_heaters : list (Z * IndexedEntity))
  : Py (list OmniLogicClimateEntity) :=
  async_setup_entry_loop bow_id_of (virtual_heater all_heaters)
    (heater_equipment_ids_of all_heaters) [].

(** [_attr_hvac_modes] *)
Definition _attr_hvac_modes : list HVACMode.t := [HVACMode.OFF; HVACMode.HEAT].

(** ** Vocabulary of the further statements *)

(** The debug line of one virtual heater. *)
Definition setup_debug_line (item : Z * IndexedEntity) : LogRecord :=
  mkLog DEBUG
    ("Configuring climate heater with ID: "
       +:+ stdpp.pretty.pretty (msp_system_id item.2)
       +:+ ", Name: " +:+ msp_config_name (entity_data item.2)).

Definition add_log_records (rs : list LogRecord) (rt : Runtime) : Runtime :=
  mkRuntime (coordinator_data rt) (system_units rt) (api_requests rt)
    (log_records rt ++ rs) (ha_state_writes rt) (_hvac_mode rt).

(** The dict [all_heaters] is a part of the device-state tree. *)
Definition heaters_of_tree (all_heaters : list (Z * IndexedEntity))
    (tree : gmap Z EntityIndexData) : Prop :=
  ∀ system_id entity,
    (system_id, entity) ∈ all_heaters →
    tree !! system_id = Some (entity_data entity).

(** A computation leaves one component of the runtime state as it was. *)
Definition keeps {A B} (f : Runtime → B) (c : Py A) : Prop :=
  ∀ rt, f (c rt).2 = f rt.

(** What a computation returns or raises is decided by the device-state
    tree and the system units. *)
Definition reads_tree {A} (c : Py A) : Prop :=
  ∀ rt1 rt2,
    coordinator_data rt1 = coordinator_data rt2 →
    system_units rt1 = system_units rt2 →
    (c rt1).1 = (c rt2).1.

(** The only change from [tree] to [tree'] is in the telemetry of the
    adapter's own virtual-heater record. *)
Definition own_telemetry_update (self : OmniLogicClimateEntity)
    (tree tree' : gmap Z EntityIndexData) : Prop :=
  tree' = tree ∨
  ∃ msp_config telemetry telemetry',
    tree !! system_id self = Some (EntityIndexHeater msp_config telemetry) ∧
    tree' = <[system_id self := EntityIndexHeater msp_config telemetry']> tree.

(** A command changes the cached tree in the telemetry of the adapter's
    own record only: the system units, every other record and what
    [min_temp] and [max_temp] give are as before, and so is
    [current_temperature] when the body of water is another record. *)
Definition touches_own_telemetry_only (self : OmniLogicClimateEntity)
    (cmd : Py unit) (rt : Runtime) : Prop :=
  let rt' := final cmd rt in
  own_telemetry_update self (coordinator_data rt) (coordinator_data rt') ∧
  system_units rt' = system_units rt ∧
  (∀ i, i ≠ system_id self → coordinator_data rt' !! i = coordinator_data rt !! i) ∧
  outcome (min_temp self) rt' = outcome (min_temp self) rt ∧
  outcome (max_temp self) rt' = outcome (max_temp self) rt ∧
  (bow_id self ≠ system_id self →
   outcome (current_temperature self) rt' = outcome (current_temperature self) rt).

(** The [all_heaters] of the sample installation. *)
Definition pool_heaters : list (Z * IndexedEntity) :=
  [(4, mkIndexed 4 (EntityIndexHeater (MSPVirtualHeater.mk "Heater" 18 40 30)
                      (TelemetryVirtualHeater.mk (PyInt 28) (PyBool true))));
   (5, mkIndexed 5 (EntityIndexHeaterEquip (MSPHeaterEquip.mk "Gas Heater" (PyStr "yes") 1)
                      (TelemetryHeater.mk (mkHeaterState 1 "On") 31)));
   (6, mkIndexed 6 (EntityIndexHeaterEquip (MSPHeaterEquip.mk "SOLAR" (PyStr "no") 1)
                      (TelemetryHeater.mk (mkHeaterState 0 "Off") 25)))].

(** * Properties *)

(** ** Running computations *)

Lemma bind_returns {A B} (c : Py A) (k : A → Py B) rt a rt' :
  c rt = (Returns a, rt') → (c ≫= k) rt = k a rt'.
Proof. intros H. unfold mbind, Py_bind. by rewrite H. Qed.

Lemma bind_raises {A B} (c : Py A) (k : A → Py B) rt e rt' :
  c rt = (Raises e, rt') → (c ≫= k) rt = (Raises e, rt').
Proof. intros H. unfold mbind, Py_bind. by rewrite H. Qed.

Lemma coordinator_data_item_Some i rt d :
  coordinator_data rt !! i = Some d →
  coordinator_data_item i rt = (Returns d, rt).
Proof.
  intros H. unfold coordinator_data_item, mbind, Py_bind, get_runtime.
  by rewrite H.
Qed.

Lemma coordinator_data_item_None i rt :
  coordinator_data rt !! i = None →
  coordinator_data_item i rt = (Raises (KeyError (PyInt i)), rt).
Proof.
  intros H. unfold coordinator_data_item, mbind, Py_bind, get_runtime.
  by rewrite H.
Qed.

Lemma data_heater self rt msp_config telemetry :
  coordinator_data rt !! system_id self
    = Some (EntityIndexHeater msp_config telemetry) →
  OmniLogicEntity.data self rt = (Returns (msp_config, telemetry), rt).
Proof.
  intros H. unfold OmniLogicEntity.data.
  by rewrite (bind_returns _ _ _ _ _ (coordinator_data_item_Some _ _ _ H)).
Qed.

Lemma read_only_ret {A} (a : A) : read_only (mret a).
Proof. by intros rt. Qed.

Lemma read_only_raise {A} (e : Exn) : read_only (@raise A e).
Proof. by intros rt. Qed.

Lemma read_only_get : read_only get_runtime.
Proof. by intros rt. Qed.

Lemma read_only_lift {A} (o : Outcome A) : read_only (lift_outcome o).
Proof. by intros rt. Qed.

Lemma read_only_bind {A B} (c : Py A) (k : A → Py B) :
  read_only c → (∀ a, read_only (k a)) → read_only (c ≫= k).
Proof.
  intros Hc Hk rt. unfold mbind, Py_bind.
  specialize (Hc rt). destruct (c rt) as [[a|e] rt']; simpl in *; subst.
  - apply Hk.
  - done.
Qed.

Create HintDb py_read.

#[local] Hint Resolve read_only_ret read_only_raise read_only_get
  read_only_lift : py_read.

Ltac read_only_tac :=
  repeat first
    [ progress eauto with py_read
    | apply read_only_bind; [| intros ? ]
    | match goal with
      | |- read_only (match ?x with _ => _ end) => destruct x
      | |- read_only (if ?b then _ else _) => destruct b
      | |- read_only (let '(_, _) := ?p in _) => destruct p
      end ].

Lemma read_only_coordinator_data_item i : read_only (coordinator_data_item i).
Proof.
  unfold coordinator_data_item. apply read_only_bind; [apply read_only_get|].
  intros rt. destruct (coordinator_data rt !! i); eauto with py_read.
Qed.

Lemma read_only_as_heater d : read_only (as_heater d).
Proof. destruct d; simpl; eauto with py_read. Qed.

Lemma read_only_as_heater_equip d : read_only (as_heater_equip d).
Proof. destruct d; simpl; eauto with py_read. Qed.

Lemma read_only_as_bow d : read_only (as_bow d).
Proof. destruct d; simpl; eauto with py_read. Qed.

#[local] Hint Resolve read_only_coordinator_data_item read_only_as_heater
  read_only_as_heater_equip read_only_as_bow : py_read.

Lemma read_only_data self : read_only (OmniLogicEntity.data self).
Proof. unfold OmniLogicEntity.data. read_only_tac. Qed.

Lemma read_only_get_system_config_units :
  read_only OmniLogicEntity.get_system_config_units.
Proof. unfold OmniLogicEntity.get_system_config_units. read_only_tac. Qed.

Lemma read_only_get_telemetry_by_systemid i :
  read_only (OmniLogicEntity.get_telemetry_by_systemid i).
Proof. unfold OmniLogicEntity.get_telemetry_by_systemid. read_only_tac. Qed.

#[local] Hint Resolve read_only_data read_only_get_system_config_units
  read_only_get_telemetry_by_systemid : py_read.

Lemma read_only_hvac_mode self : read_only (hvac_mode self).
Proof. unfold hvac_mode. read_only_tac. Qed.

#[local] Hint Resolve read_only_hvac_mode : py_read.

Lemma read_only_extra_state_attributes_loop ids acc :
  read_only (extra_state_attributes_loop ids acc).
Proof.
  revert acc. induction ids as [|i ids IH]; intros acc; simpl.
  - eauto with py_read.
  - apply read_only_bind; [eauto with py_read|]. intros d.
    apply read_only_bind; [eauto with py_read|]. intros [cfg tel]. apply IH.
Qed.

#[local] Hint Resolve read_only_extra_state_attributes_loop : py_read.

(** ** Python values at work *)

Example lower_mixed_case : ascii_lower "Gas Heater 2" = "gas heater 2".
Proof. reflexivity. Qed.

Example yes_and_no_are_true :
  py_truthy (PyStr "yes") = true ∧ py_truthy (PyStr "no") = true ∧
  py_truthy (PyStr "") = false ∧ py_truthy (PyBool false) = false.
Proof. by vm_compute. Qed.

Example enabled_flag_of_texts :
  OmniLogicEntity.enabled_flag (PyStr "yes") = PyBool true ∧
  OmniLogicEntity.enabled_flag (PyStr "no") = PyBool false ∧
  OmniLogicEntity.enabled_flag (PyBool true) = PyBool true.
Proof. by vm_compute. Qed.

Example int_of_floats :
  py_int (NFloat 21.7) = Returns 21 ∧ py_int (NFloat (-0.5)) = Returns 0 ∧
  py_int (NFloat 1e3) = Returns 1000 ∧ py_int (NInt 30) = Returns 30 ∧
  py_int (NFloat infinity) = Raises (OverflowError "cannot convert float infinity to integer").
Proof. by vm_compute. Qed.

(** ** The read path *)

Lemma hvac_mode_run self rt msp_config telemetry :
  coordinator_data rt !! system_id self
    = Some (EntityIndexHeater msp_config telemetry) →
  hvac_mode self rt
    = (Returns (if py_truthy (TelemetryVirtualHeater.enabled telemetry)
                then HVACMode.HEAT else HVACMode.OFF), rt).
Proof.
  intros H. unfold hvac_mode.
  by rewrite (bind_returns _ _ _ _ _ (data_heater _ _ _ _ H)).
Qed.

Lemma hvac_action_run self rt msp_config telemetry :
  coordinator_data rt !! system_id self
    = Some (EntityIndexHeater msp_config telemetry) →
  hvac_action self rt
    = (Returns (if py_truthy (TelemetryVirtualHeater.enabled telemetry)
                then HVACAction.HEATING else HVACAction.OFF), rt).
Proof.
  intros H. unfold hvac_action.
  rewrite (bind_returns _ _ _ _ _ (hvac_mode_run _ _ _ _ H)).
  by destruct (py_truthy _).
Qed.

Lemma hvac_mode_range self rt m :
  outcome (hvac_mode self) rt = Returns m →
  m = HVACMode.HEAT ∨ m = HVACMode.OFF.
Proof.
  unfold outcome, hvac_mode, mbind, Py_bind.
  destruct (OmniLogicEntity.data self rt) as [[[cfg tel]|e] rt']; simpl; [|done].
  unfold mret, Py_ret; simpl. destruct (py_truthy _); naive_solver.
Qed.

Lemma hvac_action_range self rt a :
  outcome (hvac_action self) rt = Returns a →
  a = HVACAction.HEATING ∨ a = HVACAction.OFF.
Proof.
  unfold outcome, hvac_action, mbind at 1, Py_bind at 1.
  destruct (hvac_mode self rt) as [[m|e] rt']; simpl; [|done].
  case_bool_decide; unfold mret, Py_ret; simpl; naive_solver.
Qed.

(** C1.  Whenever the adapter's record is in the cached tree, [hvac_mode]
    and [hvac_action] follow the telemetry's enabled flag: a true flag gives
    HEAT and HEATING, a false flag gives OFF and OFF (for any stored value,
    by its truth value).  Whatever the state, [hvac_mode] returns no mode
    other than HEAT and OFF and [hvac_action] no action other than HEATING
    and OFF. *)
Theorem hvac_mode_and_action_follow_enabled self rt :
  (∀ msp_config telemetry,
     coordinator_data rt !! system_id self
       = Some (EntityIndexHeater msp_config telemetry) →
     let flag := py_truthy (TelemetryVirtualHeater.enabled telemetry) in
     (flag = true →
        outcome (hvac_mode self) rt = Returns HVACMode.HEAT ∧
        outcome (hvac_action self) rt = Returns HVACAction.HEATING) ∧
     (flag = false →
        outcome (hvac_mode self) rt = Returns HVACMode.OFF ∧
        outcome (hvac_action self) rt = Returns HVACAction.OFF) ∧
     (∀ b, TelemetryVirtualHeater.enabled telemetry = PyBool b → flag = b)) ∧
  (∀ m, outcome (hvac_mode self) rt = Returns m →
        m = HVACMode.HEAT ∨ m = HVACMode.OFF) ∧
  (∀ a, outcome (hvac_action self) rt = Returns a →
        a = HVACAction.HEATING ∨ a = HVACAction.OFF).
Proof.
  split; [|split].
  - intros cfg tel H flag. unfold outcome.
    rewrite (hvac_mode_run _ _ _ _ H), (hvac_action_run _ _ _ _ H).
    fold flag. split; [by intros -> | split; [by intros -> |]].
    intros b Hb. unfold flag. by rewrite Hb.
  - apply hvac_mode_range.
  - apply hvac_action_range.
Qed.

Lemma hvac_mode_and_action_follow_enabled_witness :
  outcome (hvac_mode pool_heater) pool = Returns HVACMode.HEAT ∧
  outcome (hvac_action pool_heater) pool = Returns HVACAction.HEATING.
Proof.
  destruct (hvac_mode_and_action_follow_enabled pool_heater pool) as [H _].
  destruct (H (MSPVirtualHeater.mk "Heater" 18 40 30)
              (TelemetryVirtualHeater.mk (PyInt 28) (PyBool true)))
    as [Hon _]; [reflexivity|].
  apply Hon. reflexivity.
Defined.

Lemma get_telemetry_by_systemid_bow i rt bow :
  coordinator_data rt !! i = Some (EntityIndexBoW bow) →
  OmniLogicEntity.get_telemetry_by_systemid i rt = (Returns bow, rt).
Proof.
  intros H. unfold OmniLogicEntity.get_telemetry_by_systemid.
  by rewrite (bind_returns _ _ _ _ _ (coordinator_data_item_Some _ _ _ H)).
Qed.

Lemma current_temperature_run self rt bow :
  coordinator_data rt !! bow_id self = Some (EntityIndexBoW bow) →
  current_temperature self rt
    = (Returns (if bool_decide (TelemetryBoW.water_temp bow ≠ -1)
                then Some (TelemetryBoW.water_temp bow) else None), rt).
Proof.
  intros H. unfold current_temperature.
  by rewrite (bind_returns _ _ _ _ _ (get_telemetry_by_systemid_bow _ _ _ H)).
Qed.

(** C5.  With the parent body of water in the cached tree,
    [current_temperature] returns [None] exactly when the raw water
    temperature is the sentinel -1, and returns the raw value unchanged for
    every other raw value. *)
Theorem current_temperature_sentinel self rt bow :
  coordinator_data rt !! bow_id self = Some (EntityIndexBoW bow) →
  (outcome (current_temperature self) rt = Returns None
     ↔ TelemetryBoW.water_temp bow = -1) ∧
  (TelemetryBoW.water_temp bow ≠ -1 →
     outcome (current_temperature self) rt
       = Returns (Some (TelemetryBoW.water_temp bow))).
Proof.
  intros H. unfold outcome. rewrite (current_temperature_run _ _ _ H). simpl.
  case_bool_decide as Hs.
  - split; [split; [done | lia] | done].
  - assert (TelemetryBoW.water_temp bow = -1) as Heq by lia.
    split; [done | lia].
Qed.

Lemma current_temperature_sentinel_witness :
  outcome (current_temperature pool_heater) pool = Returns (Some 27).
Proof.
  apply (current_temperature_sentinel pool_heater pool (TelemetryBoW.mk 27));
    [reflexivity | simpl; lia].
Defined.

Lemma read_only_temperature_unit : read_only temperature_unit.
Proof. unfold temperature_unit. read_only_tac. Qed.

Lemma read_only_min_temp self : read_only (min_temp self).
Proof. unfold min_temp. read_only_tac. Qed.

Lemma read_only_max_temp self : read_only (max_temp self).
Proof. unfold max_temp. read_only_tac. Qed.

Lemma read_only_target_temperature self : read_only (target_temperature self).
Proof. unfold target_temperature. read_only_tac. Qed.

Lemma read_only_current_temperature self : read_only (current_temperature self).
Proof. unfold current_temperature. read_only_tac. Qed.

Lemma read_only_hvac_action self : read_only (hvac_action self).
Proof. unfold hvac_action. read_only_tac. Qed.

Lemma read_only_current_operation self : read_only (current_operation self).
Proof. unfold current_operation. read_only_tac. Qed.

Lemma read_only_extra_state_attributes self :
  read_only (extra_state_attributes self).
Proof. unfold extra_state_attributes. read_only_tac. Qed.

(** C10.  Every read property hands on the runtime state it was given,
    whether it returns or raises: the device-state tree, the adapter's
    attributes, the request list and the log are untouched. *)
Theorem reads_never_mutate self rt :
  final temperature_unit rt = rt ∧
  final (min_temp self) rt = rt ∧
  final (max_temp self) rt = rt ∧
  final (target_temperature self) rt = rt ∧
  final (current_temperature self) rt = rt ∧
  final (hvac_mode self) rt = rt ∧
  final (hvac_action self) rt = rt ∧
  final (current_operation self) rt = rt ∧
  final (extra_state_attributes self) rt = rt.
Proof.
  unfold final. repeat apply conj.
  - apply read_only_temperature_unit.
  - apply read_only_min_temp.
  - apply read_only_max_temp.
  - apply read_only_target_temperature.
  - apply read_only_current_temperature.
  - apply read_only_hvac_mode.
  - apply read_only_hvac_action.
  - apply read_only_current_operation.
  - apply read_only_extra_state_attributes.
Qed.

(** ** The write path *)

Lemma temperature_unit_run rt : temperature_unit rt = (Returns (unit_of rt), rt).
Proof. reflexivity. Qed.

Lemma await_omni_api_ok omni_api c rt :
  omni_api c = None →
  await_omni_api omni_api c rt = (Returns tt, add_api_request c rt).
Proof.
  intros H. unfold await_omni_api, mbind, Py_bind, get_runtime, put_runtime.
  by rewrite H.
Qed.

Lemma await_omni_api_raises omni_api c rt e :
  omni_api c = Some e →
  await_omni_api omni_api c rt = (Raises e, add_api_request c rt).
Proof.
  intros H. unfold await_omni_api, mbind, Py_bind, get_runtime, put_runtime.
  by rewrite H.
Qed.

Lemma set_telemetry_current_set_point self rt msp_config telemetry v :
  coordinator_data rt !! system_id self
    = Some (EntityIndexHeater msp_config telemetry) →
  OmniLogicEntity.set_telemetry self [("current_set_point", v)] rt
    = (Returns tt,
       set_coordinator_data
         (<[system_id self :=
              EntityIndexHeater msp_config
                (TelemetryVirtualHeater.set_current_set_point v telemetry)]>
            (coordinator_data rt)) rt).
Proof.
  intros H. simpl.
  by rewrite (bind_returns _ _ _ _ _ (data_heater _ _ _ _ H)).
Qed.

Lemma set_telemetry_enabled self rt msp_config telemetry v :
  coordinator_data rt !! system_id self
    = Some (EntityIndexHeater msp_config telemetry) →
  OmniLogicEntity.set_telemetry self [("enabled", v)] rt
    = (Returns tt,
       set_coordinator_data
         (<[system_id self :=
              EntityIndexHeater msp_config
                (TelemetryVirtualHeater.set_enabled
                   (OmniLogicEntity.enabled_flag v) telemetry)]>
            (coordinator_data rt)) rt).
Proof.
  intros H. simpl.
  by rewrite (bind_returns _ _ _ _ _ (data_heater _ _ _ _ H)).
Qed.

Lemma set_coordinator_data_id rt :
  set_coordinator_data (coordinator_data rt) rt = rt.
Proof. by destruct rt. Qed.

Lemma set_coordinator_data_twice d d' rt :
  set_coordinator_data d (set_coordinator_data d' rt) = set_coordinator_data d rt.
Proof. done. Qed.

Lemma setattr_telemetry_read_only tel key value :
  read_only (OmniLogicEntity.setattr_telemetry tel key value).
Proof. unfold OmniLogicEntity.setattr_telemetry. read_only_tac. Qed.

(** One entry of [set_telemetry]: either the record or the attribute is
    missing and nothing is written, or the record is written back with
    the attribute assigned. *)
Lemma set_telemetry_cons self key value rest rt :
  (∃ e, OmniLogicEntity.set_telemetry self ((key, value) :: rest) rt
          = (Raises e, rt)) ∨
  (∃ d, OmniLogicEntity.set_telemetry self ((key, value) :: rest) rt
          = OmniLogicEntity.set_telemetry self rest (set_coordinator_data d rt)).
Proof.
  simpl.
  pose proof (read_only_data self rt) as Hd.
  destruct (OmniLogicEntity.data self rt) as [[[cfg tel]|e] rt0] eqn:Ed;
    simpl in Hd; subst rt0.
  2: { left. exists e. by rewrite (bind_raises _ _ _ _ _ Ed). }
  rewrite (bind_returns _ _ _ _ _ Ed).
  pose proof (setattr_telemetry_read_only tel key value rt) as Hs.
  destruct (OmniLogicEntity.setattr_telemetry tel key value rt)
    as [[tel'|e] rt0] eqn:Es; simpl in Hs; subst rt0.
  2: { left. exists e. by rewrite (bind_raises _ _ _ _ _ Es). }
  rewrite (bind_returns _ _ _ _ _ Es).
  right. by eexists.
Qed.

(** Whatever it is given and however it ends, [set_telemetry] changes the
    device-state tree only. *)
Lemma set_telemetry_frame self new_telemetry rt :
  ∃ d, (OmniLogicEntity.set_telemetry self new_telemetry rt).2
         = set_coordinator_data d rt.
Proof.
  revert rt. induction new_telemetry as [|[key value] rest IH]; intros rt.
  - exists (coordinator_data rt). by rewrite set_coordinator_data_id.
  - destruct (set_telemetry_cons self key value rest rt) as [[e ->]|[d ->]].
    + exists (coordinator_data rt). by rewrite set_coordinator_data_id.
    + destruct (IH (set_coordinator_data d rt)) as [d' ->]. by exists d'.
Qed.

(** When [set_telemetry] raises on a single-entry dict, nothing was
    written. *)
Lemma set_telemetry_single_raises self key value rt e :
  (OmniLogicEntity.set_telemetry self [(key, value)] rt).1 = Raises e →
  (OmniLogicEntity.set_telemetry self [(key, value)] rt).2 = rt.
Proof.
  destruct (set_telemetry_cons self key value [] rt) as [[e' ->]|[d ->]]; done.
Qed.

(** C3.  A mode other than HEAT and OFF: the call returns normally, adds
    one error line to the log, and changes nothing else; no request goes to
    the command API, the cached tree, the adapter's [_hvac_mode] and the
    count of state writes are as before. *)
Theorem unrecognized_hvac_mode_only_logs omni_api self mode rt :
  mode ≠ HVACMode.HEAT → mode ≠ HVACMode.OFF →
  let line := mkLog ERROR ("Unrecognized hvac mode: " +:+ HVACMode.value mode) in
  let rt' := final (async_set_hvac_mode omni_api self mode) rt in
  outcome (async_set_hvac_mode omni_api self mode) rt = Returns tt ∧
  rt' = add_log_record line rt ∧
  api_requests rt' = api_requests rt ∧
  coordinator_data rt' = coordinator_data rt ∧
  _hvac_mode rt' = _hvac_mode rt ∧
  ha_state_writes rt' = ha_state_writes rt ∧
  log_records rt' = log_records rt ++ [line].
Proof.
  intros Hheat Hoff line rt'. subst rt'.
  unfold outcome, final, async_set_hvac_mode.
  rewrite !bool_decide_eq_false_2 by done.
  done.
Qed.

Lemma unrecognized_hvac_mode_only_logs_witness :
  outcome (async_set_hvac_mode api_ok pool_heater HVACMode.COOL) pool = Returns tt ∧
  log_records (final (async_set_hvac_mode api_ok pool_heater HVACMode.COOL) pool)
    = [mkLog ERROR "Unrecognized hvac mode: cool"] ∧
  api_requests (final (async_set_hvac_mode api_ok pool_heater HVACMode.COOL) pool)
    = [].
Proof.
  destruct (unrecognized_hvac_mode_only_logs api_ok pool_heater HVACMode.COOL pool)
    as (Hret & _ & Hreq & _ & _ & _ & Hlog); [discriminate | discriminate |].
  split; [exact Hret | split; [exact Hlog | exact Hreq]].
Defined.

(** C9.  Keyword arguments without a temperature entry: the call raises
    [KeyError] and the runtime state is the one it was given, so no request
    was sent and no telemetry was written. *)
Theorem set_temperature_without_temperature omni_api self kwargs rt :
  kwargs !! ATTR_TEMPERATURE = None →
  async_set_temperature omni_api self kwargs rt
    = (Raises (KeyError (PyStr "temperature")), rt).
Proof.
  intros H. unfold async_set_temperature.
  apply bind_raises. unfold kwargs_item. by rewrite H.
Qed.

Lemma set_temperature_without_temperature_witness :
  async_set_temperature api_ok pool_heater ∅ pool
    = (Raises (KeyError (PyStr "temperature")), pool).
Proof.
  apply (set_temperature_without_temperature api_ok pool_heater ∅ pool).
  reflexivity.
Defined.

Lemma async_set_temperature_run omni_api self kwargs rt v n msp_config telemetry :
  kwargs !! ATTR_TEMPERATURE = Some v →
  py_int v = Returns n →
  coordinator_data rt !! system_id self
    = Some (EntityIndexHeater msp_config telemetry) →
  omni_api (async_set_heater (bow_id self) (system_id self) n (unit_of rt)) = None →
  async_set_temperature omni_api self kwargs rt
    = (Returns tt,
       set_coordinator_data
         (<[system_id self :=
              EntityIndexHeater msp_config
                (TelemetryVirtualHeater.set_current_set_point (PyInt n) telemetry)]>
            (coordinator_data rt))
         (add_api_request
            (async_set_heater (bow_id self) (system_id self) n (unit_of rt)) rt)).
Proof.
  intros Hk Hn Hd Hapi. unfold async_set_temperature.
  assert (∀ r, kwargs_item kwargs ATTR_TEMPERATURE r = (Returns v, r)) as Hitem.
  { intros r. unfold kwargs_item. by rewrite Hk. }
  assert (∀ r, lift_outcome (py_int v) r = (Returns n, r)) as Hint.
  { intros r. unfold lift_outcome. by rewrite Hn. }
  rewrite (bind_returns _ _ _ _ _ (Hitem _)).
  rewrite (bind_returns _ _ _ _ _ (Hint _)).
  rewrite (bind_returns _ _ _ _ _ (temperature_unit_run _)).
  rewrite (bind_returns _ _ _ _ _ (await_omni_api_ok _ _ _ Hapi)).
  rewrite (bind_returns _ _ _ _ _ (Hitem _)).
  rewrite (bind_returns _ _ _ _ _ (Hint _)).
  by rewrite (set_telemetry_current_set_point _ _ msp_config telemetry).
Qed.

(** Truncation of a finite non-zero float [(-1)^s * m * 2^e]: the result
    has the sign of the float and its magnitude [k] is the integer part of
    [m * 2^e]. *)
Lemma float_trunc_finite f s m e :
  Prim2SF f = S754_finite s m e →
  ∃ k, float_trunc f = Returns (if s then - k else k) ∧ 0 ≤ k ∧
       (0 ≤ e → k = Z.pos m * 2 ^ e) ∧
       (e < 0 → k * 2 ^ (- e) ≤ Z.pos m < (k + 1) * 2 ^ (- e)).
Proof.
  intros H. unfold float_trunc. rewrite H.
  destruct (Z.leb_spec 0 e) as [He|He].
  - exists (Z.shiftl (Z.pos m) e). rewrite Z.shiftl_mul_pow2 by done.
    split; [done|]. split; [|split; [done | lia]].
    apply Z.mul_nonneg_nonneg; [lia|]. by apply Z.pow_nonneg.
  - exists (Z.shiftr (Z.pos m) (- e)). rewrite Z.shiftr_div_pow2 by lia.
    assert (0 < 2 ^ (- e)) as Hp by (apply Z.pow_pos_nonneg; lia).
    split; [done|]. split; [|split; [lia|]].
    + apply Z.div_pos; lia.
    + intros _.
      pose proof (Z.mod_pos_bound (Z.pos m) (2 ^ (- e)) Hp).
      pose proof (Z.div_mod (Z.pos m) (2 ^ (- e))). nia.
Qed.

Lemma target_temperature_run self rt msp_config telemetry :
  coordinator_data rt !! system_id self
    = Some (EntityIndexHeater msp_config telemetry) →
  target_temperature self rt
    = (Returns (TelemetryVirtualHeater.current_set_point telemetry), rt).
Proof.
  intros H. unfold target_temperature.
  by rewrite (bind_returns _ _ _ _ _ (data_heater _ _ _ _ H)).
Qed.

(** C6.  Setting the target temperature sends [int(temperature)] to the
    command API and caches the same integer as the set-point, whatever the
    configured minimum and maximum are.  [int] truncates a float towards
    zero: 21.7 is sent and cached as 21 (and -21.7 as -21); a value above the
    configured maximum goes through just the same. *)
Theorem set_temperature_truncates :
  (∀ omni_api self kwargs rt v n msp_config telemetry,
     kwargs !! ATTR_TEMPERATURE = Some v →
     py_int v = Returns n →
     coordinator_data rt !! system_id self
       = Some (EntityIndexHeater msp_config telemetry) →
     let request :=
       async_set_heater (bow_id self) (system_id self) n (unit_of rt) in
     omni_api request = None →
     let rt' := final (async_set_temperature omni_api self kwargs) rt in
     outcome (async_set_temperature omni_api self kwargs) rt = Returns tt ∧
     api_requests rt' = api_requests rt ++ [request] ∧
     outcome (target_temperature self) rt' = Returns (PyInt n)) ∧
  (∀ f s m e,
     Prim2SF f = S754_finite s m e →
     ∃ k, py_int (NFloat f) = Returns (if s then - k else k) ∧ 0 ≤ k ∧
          (0 ≤ e → k = Z.pos m * 2 ^ e) ∧
          (e < 0 → k * 2 ^ (- e) ≤ Z.pos m < (k + 1) * 2 ^ (- e))) ∧
  py_int (NFloat 21.7) = Returns 21 ∧
  py_int (NFloat (-21.7)) = Returns (-21) ∧
  (let cmd :=
     async_set_temperature api_ok pool_heater {[ "temperature" := NFloat 21.7 ]} in
   api_requests (final cmd pool)
     = [async_set_heater 1 4 21 UnitOfTemperature.CELSIUS] ∧
   outcome (target_temperature pool_heater) (final cmd pool) = Returns (PyInt 21)) ∧
  (let cmd :=
     async_set_temperature api_ok pool_heater {[ "temperature" := NFloat 150.9 ]} in
   outcome (max_temp pool_heater) pool = Returns 40 ∧
   api_requests (final cmd pool)
     = [async_set_heater 1 4 150 UnitOfTemperature.CELSIUS] ∧
   outcome (target_temperature pool_heater) (final cmd pool) = Returns (PyInt 150)).
Proof.
  split; [|split; [|split; [|split; [|split]]]].
  - intros omni_api self kwargs rt v n cfg tel Hk Hn Hd request Hapi rt'.
    subst rt'. unfold outcome, final.
    rewrite (async_set_temperature_run _ _ _ _ _ _ _ _ Hk Hn Hd Hapi). simpl.
    split; [done|]. split; [done|].
    rewrite (target_temperature_run _ _ cfg
               (TelemetryVirtualHeater.set_current_set_point (PyInt n) tel));
      [done|].
    simpl. apply lookup_insert_eq.
  - intros f s m e H. apply (float_trunc_finite f s m e H).
  - vm_compute. reflexivity.
  - vm_compute. reflexivity.
  - vm_compute. done.
  - vm_compute. done.
Qed.

Lemma set_temperature_truncates_witness :
  let cmd :=
    async_set_temperature api_ok pool_heater {[ "temperature" := NFloat 28.5 ]} in
  outcome cmd pool = Returns tt ∧
  api_requests (final cmd pool)
    = [async_set_heater 1 4 28 UnitOfTemperature.CELSIUS] ∧
  outcome (target_temperature pool_heater) (final cmd pool) = Returns (PyInt 28).
Proof.
  destruct set_temperature_truncates as [H _].
  apply (H api_ok pool_heater {[ "temperature" := NFloat 28.5 ]} pool
           (NFloat 28.5) 28 (MSPVirtualHeater.mk "Heater" 18 40 30)
           (TelemetryVirtualHeater.mk (PyInt 28) (PyBool true)));
    vm_compute; reflexivity.
Defined.

Lemma async_set_hvac_mode_heat omni_api self :
  async_set_hvac_mode omni_api self HVACMode.HEAT
    = enable_branch omni_api self HVACMode.HEAT true "yes".
Proof. reflexivity. Qed.

Lemma async_set_hvac_mode_off omni_api self :
  async_set_hvac_mode omni_api self HVACMode.OFF
    = enable_branch omni_api self HVACMode.OFF false "no".
Proof. reflexivity. Qed.

Lemma enable_branch_api_raises omni_api self mode enable text rt e :
  omni_api (async_set_heater_enable (bow_id self) (system_id self) enable)
    = Some e →
  enable_branch omni_api self mode enable text rt
    = (Raises e,
       add_api_request
         (async_set_heater_enable (bow_id self) (system_id self) enable)
         (set__hvac_mode mode rt)).
Proof.
  intros Hapi. unfold enable_branch.
  rewrite (bind_returns get_runtime _ rt rt rt) by done.
  rewrite (bind_returns (put_runtime _) _ rt tt (set__hvac_mode mode rt)) by done.
  by rewrite (bind_raises _ _ _ _ _ (await_omni_api_raises _ _ _ _ Hapi)).
Qed.

Lemma enable_branch_api_ok omni_api self mode enable text rt :
  omni_api (async_set_heater_enable (bow_id self) (system_id self) enable)
    = None →
  let rt1 :=
    add_api_request
      (async_set_heater_enable (bow_id self) (system_id self) enable)
      (set__hvac_mode mode rt) in
  (∃ e, enable_branch omni_api self mode enable text rt = (Raises e, rt1)) ∨
  (∃ d, enable_branch omni_api self mode enable text rt
          = (Returns tt, add_ha_state_write (set_coordinator_data d rt1))).
Proof.
  intros Hapi rt1. unfold enable_branch.
  rewrite (bind_returns get_runtime _ rt rt rt) by done.
  rewrite (bind_returns (put_runtime _) _ rt tt (set__hvac_mode mode rt)) by done.
  rewrite (bind_returns _ _ _ _ _ (await_omni_api_ok _ _ _ Hapi)). fold rt1.
  destruct (set_telemetry_cons self "enabled" (PyStr text) [] rt1)
    as [[e He]|[d Hd]].
  - left. exists e. by rewrite (bind_raises _ _ _ _ _ He).
  - right. exists d. by rewrite (bind_returns _ _ _ _ _ Hd).
Qed.

Lemma enable_branch_run omni_api self mode enable text rt msp_config telemetry :
  coordinator_data rt !! system_id self
    = Some (EntityIndexHeater msp_config telemetry) →
  omni_api (async_set_heater_enable (bow_id self) (system_id self) enable)
    = None →
  enable_branch omni_api self mode enable text rt
    = (Returns tt,
       add_ha_state_write
         (set_coordinator_data
            (<[system_id self :=
                 EntityIndexHeater msp_config
                   (TelemetryVirtualHeater.set_enabled
                      (OmniLogicEntity.enabled_flag (PyStr text)) telemetry)]>
               (coordinator_data rt))
            (add_api_request
               (async_set_heater_enable (bow_id self) (system_id self) enable)
               (set__hvac_mode mode rt)))).
Proof.
  intros Hd Hapi. unfold enable_branch.
  rewrite (bind_returns get_runtime _ rt rt rt) by done.
  rewrite (bind_returns (put_runtime _) _ rt tt (set__hvac_mode mode rt)) by done.
  rewrite (bind_returns _ _ _ _ _ (await_omni_api_ok _ _ _ Hapi)).
  by rewrite (bind_returns _ _ _ _ _
                (set_telemetry_enabled self
                   (add_api_request
                      (async_set_heater_enable (bow_id self) (system_id self) enable)
                      (set__hvac_mode mode rt))
                   msp_config telemetry (PyStr text) Hd)).
Qed.

(** The ways [async_set_temperature] can end: it raises before the
    request, the request raises, or the request completes and the cached
    set-point is written (or the write raises and nothing is written). *)
Lemma async_set_temperature_cases omni_api self kwargs rt :
  (∃ e, async_set_temperature omni_api self kwargs rt = (Raises e, rt)) ∨
  (∃ req e, omni_api req = Some e ∧
     async_set_temperature omni_api self kwargs rt
       = (Raises e, add_api_request req rt)) ∨
  (∃ req, omni_api req = None ∧
     ((∃ e, async_set_temperature omni_api self kwargs rt
              = (Raises e, add_api_request req rt)) ∨
      (∃ d, async_set_temperature omni_api self kwargs rt
              = (Returns tt, set_coordinator_data d (add_api_request req rt))))).
Proof.
  unfold async_set_temperature.
  destruct (kwargs !! ATTR_TEMPERATURE) as [v|] eqn:Hk.
  2: { left. eexists. apply bind_raises. unfold kwargs_item. by rewrite Hk. }
  assert (∀ r, kwargs_item kwargs ATTR_TEMPERATURE r = (Returns v, r)) as Hitem.
  { intros r. unfold kwargs_item. by rewrite Hk. }
  rewrite (bind_returns _ _ _ _ _ (Hitem _)).
  destruct (py_int v) as [n|e] eqn:Hn.
  2: { left. exists e. by apply bind_raises. }
  assert (∀ r, lift_outcome (Returns n) r = (Returns n, r)) as Hint by done.
  rewrite (bind_returns _ _ _ _ _ (Hint _)).
  rewrite (bind_returns _ _ _ _ _ (temperature_unit_run _)).
  set (req := async_set_heater (bow_id self) (system_id self) n (unit_of rt)).
  right. destruct (omni_api req) as [e|] eqn:Hapi.
  { left. exists req, e. split; [done|].
    by rewrite (bind_raises _ _ _ _ _ (await_omni_api_raises _ _ _ _ Hapi)). }
  right. exists req. split; [done|].
  rewrite (bind_returns _ _ _ _ _ (await_omni_api_ok _ _ _ Hapi)).
  rewrite (bind_returns _ _ _ _ _ (Hitem _)). rewrite Hn.
  rewrite (bind_returns _ _ _ _ _ (Hint _)).
  destruct (set_telemetry_cons self "current_set_point" (PyInt n) []
              (add_api_request req rt)) as [[e ->]|[d ->]].
  - left. by exists e.
  - right. by exists d.
Qed.

(** The ways [async_set_hvac_mode] can end for HEAT ([enable] true) and OFF
    ([enable] false): [_hvac_mode] is assigned and the request is sent; then
    the request raises, or it completes and the enabled flag is written
    and a state write requested (or the write raises and nothing is
    written). *)
Lemma async_set_hvac_mode_cases omni_api self mode rt :
  mode = HVACMode.HEAT ∨ mode = HVACMode.OFF →
  ∃ req,
    let rt1 := add_api_request req (set__hvac_mode mode rt) in
    (∃ e, omni_api req = Some e ∧
       async_set_hvac_mode omni_api self mode rt = (Raises e, rt1)) ∨
    (omni_api req = None ∧
       ((∃ e, async_set_hvac_mode omni_api self mode rt = (Raises e, rt1)) ∨
        (∃ d, async_set_hvac_mode omni_api self mode rt
                = (Returns tt, add_ha_state_write (set_coordinator_data d rt1))))).
Proof.
  intros [-> | ->].
  - rewrite async_set_hvac_mode_heat.
    exists (async_set_heater_enable (bow_id self) (system_id self) true).
    destruct (omni_api _) as [e|] eqn:Hapi.
    + left. exists e. split; [done|]. by apply enable_branch_api_raises.
    + right. split; [done|]. by apply enable_branch_api_ok.
  - rewrite async_set_hvac_mode_off.
    exists (async_set_heater_enable (bow_id self) (system_id self) false).
    destruct (omni_api _) as [e|] eqn:Hapi.
    + left. exists e. split; [done|]. by apply enable_branch_api_raises.
    + right. split; [done|]. by apply enable_branch_api_ok.
Qed.

(** C4 as stated fails: when the request of a mode change raises, the
    adapter's [_hvac_mode] attribute already holds the requested mode. *)
Lemma set_hvac_mode_not_atomic_on_error :
  ¬ atomic_on_error (async_set_hvac_mode api_down pool_heater HVACMode.OFF) pool.
Proof.
  intros H. specialize (H (ApiError "timeout") eq_refl).
  vm_compute in H. discriminate H.
Qed.

(** C4, amended.  Both commands write the cached device-state tree only
    after a request to the command API has completed: whenever a command
    raises, the tree and the count of requested state writes are as
    before, and whenever the tree differs afterwards a request was sent
    and completed.  Setting the temperature leaves [_hvac_mode] alone as
    well; a mode change to HEAT or OFF assigns [_hvac_mode] before the
    request, so it holds the requested mode also when the command raises. *)
Theorem commands_write_tree_after_request omni_api self rt :
  (∀ kwargs,
     let cmd := async_set_temperature omni_api self kwargs in
     atomic_on_error cmd rt ∧
     (∀ e, outcome cmd rt = Raises e →
           ha_state_writes (final cmd rt) = ha_state_writes rt) ∧
     (coordinator_data (final cmd rt) ≠ coordinator_data rt →
      ∃ req, omni_api req = None ∧
             api_requests (final cmd rt) = api_requests rt ++ [req])) ∧
  (∀ mode,
     let cmd := async_set_hvac_mode omni_api self mode in
     (∀ e, outcome cmd rt = Raises e →
           coordinator_data (final cmd rt) = coordinator_data rt ∧
           ha_state_writes (final cmd rt) = ha_state_writes rt ∧
           _hvac_mode (final cmd rt) = Some mode) ∧
     (coordinator_data (final cmd rt) ≠ coordinator_data rt →
      ∃ req, omni_api req = None ∧
             api_requests (final cmd rt) = api_requests rt ++ [req])).
Proof.
  split.
  - intros kwargs cmd. subst cmd. unfold atomic_on_error, outcome, final.
    destruct (async_set_temperature_cases omni_api self kwargs rt)
      as [[e ->]|[(req & e & Hapi & ->)|(req & Hapi & [[e ->]|[d ->]])]];
      simpl; (split; [|split]); try done.
    intros _. by exists req.
  - intros mode cmd. subst cmd. unfold outcome, final.
    destruct (decide (mode = HVACMode.HEAT ∨ mode = HVACMode.OFF)) as [Hm|Hm].
    + destruct (async_set_hvac_mode_cases omni_api self mode rt Hm)
        as [req [(e & Hapi & ->)|(Hapi & [[e ->]|[d ->]])]];
        simpl; split; try done.
      intros _. by exists req.
    + assert (mode ≠ HVACMode.HEAT ∧ mode ≠ HVACMode.OFF) as [H1 H2]
        by (split; intros ->; apply Hm; auto).
      unfold async_set_hvac_mode. rewrite !bool_decide_eq_false_2 by done.
      simpl. split; done.
Qed.

Lemma commands_write_tree_after_request_witness :
  let cmd := async_set_hvac_mode api_down pool_heater HVACMode.HEAT in
  coordinator_data (final cmd pool) = coordinator_data pool ∧
  ha_state_writes (final cmd pool) = ha_state_writes pool ∧
  _hvac_mode (final cmd pool) = Some HVACMode.HEAT.
Proof.
  destruct (commands_write_tree_after_request api_down pool_heater pool)
    as [_ H].
  destruct (H HVACMode.HEAT) as [Hraise _].
  apply (Hraise (ApiError "timeout")). reflexivity.
Defined.

(** ** The extended attributes *)

Lemma append_cons a s t : String a s +:+ t = String a (s +:+ t).
Proof. reflexivity. Qed.

Lemma list_ascii_of_string_append s t :
  list_ascii_of_string (s +:+ t)
    = list_ascii_of_string s ++ list_ascii_of_string t.
Proof.
  induction s as [|a s IH]; [done|].
  rewrite append_cons. simpl. by rewrite IH.
Qed.

Lemma list_ascii_of_string_inj s t :
  list_ascii_of_string s = list_ascii_of_string t → s = t.
Proof.
  intros H. rewrite <-(string_of_list_ascii_of_string s),
    <-(string_of_list_ascii_of_string t). by rewrite H.
Qed.

(** Two keys built from a prefix and one of the five endings are equal only
    if the prefixes and the endings are. *)
Lemma prefixed_key_inj p1 p2 a b :
  a ∈ attribute_suffixes → b ∈ attribute_suffixes →
  p1 +:+ a = p2 +:+ b → p1 = p2 ∧ a = b.
Proof.
  intros Ha Hb Heq.
  apply (f_equal list_ascii_of_string) in Heq.
  rewrite !list_ascii_of_string_append in Heq.
  apply (f_equal (@rev ascii)) in Heq. rewrite !rev_app_distr in Heq.
  assert (a = b) as ->.
  { unfold attribute_suffixes in Ha, Hb.
    repeat (apply elem_of_cons in Ha as [-> | Ha]);
      try (by apply elem_of_nil in Ha);
      repeat (apply elem_of_cons in Hb as [-> | Hb]);
      try (by apply elem_of_nil in Hb);
      try reflexivity; simpl in Heq; discriminate Heq. }
  split; [|done].
  apply app_inv_head in Heq. apply (f_equal (@rev ascii)) in Heq.
  rewrite !rev_involutive in Heq. by apply list_ascii_of_string_inj.
Qed.

Lemma heater_prefix_inj n1 n2 :
  heater_prefix n1 = heater_prefix n2 → lower n1 = lower n2.
Proof. unfold heater_prefix. apply String.app_inj. Qed.

Lemma elem_of_attribute_keys k name :
  k ∈ attribute_keys name ↔
  ∃ suffix, suffix ∈ attribute_suffixes ∧ k = heater_prefix name +:+ suffix.
Proof.
  unfold attribute_keys. rewrite list_elem_of_fmap. split.
  - intros (suffix & -> & Hs). by exists suffix.
  - intros (suffix & Hs & ->). by exists suffix.
Qed.

(** Elements whose lower-cased names differ contribute disjoint keys, and
    elements whose lower-cased names agree contribute the same keys. *)
Lemma attribute_keys_disjoint n1 n2 k :
  lower n1 ≠ lower n2 → k ∈ attribute_keys n1 → k ∉ attribute_keys n2.
Proof.
  intros Hne (a & Ha & ->)%elem_of_attribute_keys
    (b & Hb & Heq)%elem_of_attribute_keys.
  apply prefixed_key_inj in Heq as [Hp _]; [|done..].
  by apply Hne, heater_prefix_inj.
Qed.

Lemma attribute_keys_same n1 n2 :
  lower n1 = lower n2 → attribute_keys n1 = attribute_keys n2.
Proof. intros H. unfold attribute_keys, heater_prefix. by rewrite H. Qed.

Lemma attribute_keys_NoDup name : NoDup (attribute_keys name).
Proof.
  unfold attribute_keys. apply NoDup_fmap_2_strong.
  - intros a b Ha Hb Heq. by apply prefixed_key_inj in Heq as [_ ?].
  - unfold attribute_suffixes.
    repeat (apply NoDup_cons; split;
            [intros H;
             repeat (apply elem_of_cons in H as [H|H]; [discriminate H|]);
             by apply elem_of_nil in H |]).
    apply NoDup_nil_2.
Qed.

Lemma solar_set_point_not_attribute_key name :
  "solar_set_point" ∉ attribute_keys name.
Proof.
  intros (a & _ & Heq)%elem_of_attribute_keys.
  unfold heater_prefix in Heq. rewrite !append_cons in Heq. discriminate Heq.
Qed.

Lemma dom_heater_equipment_attributes name system_id msp_config telemetry :
  dom (heater_equipment_attributes (heater_prefix name) system_id
         msp_config telemetry)
    = list_to_set (attribute_keys name).
Proof.
  unfold heater_equipment_attributes, attribute_keys, attribute_suffixes.
  rewrite !dom_insert_L, dom_empty_L, !fmap_cons, fmap_nil.
  generalize (heater_prefix name +:+ "_enabled")
    (heater_prefix name +:+ "_system_id") (heater_prefix name +:+ "_bow_id")
    (heater_prefix name +:+ "_state") (heater_prefix name +:+ "_sensor_temp").
  intros k1 k2 k3 k4 k5. set_solver.
Qed.

Lemma dom_equipment_attributes tree system_id :
  is_heater_equip tree system_id →
  dom (equipment_attributes tree system_id)
    = list_to_set (attribute_keys (equipment_name tree system_id)).
Proof.
  intros (cfg & tel & H). unfold equipment_attributes, equipment_name.
  rewrite H. apply dom_heater_equipment_attributes.
Qed.

Lemma merged_attributes_cons tree i ids extra :
  merged_attributes tree (i :: ids) extra
    = merged_attributes tree ids (dict_or extra (equipment_attributes tree i)).
Proof. reflexivity. Qed.

Lemma all_attribute_keys_cons tree i ids :
  all_attribute_keys tree (i :: ids)
    = attribute_keys (equipment_name tree i) ++ all_attribute_keys tree ids.
Proof. reflexivity. Qed.

Lemma extra_state_attributes_loop_run ids extra rt :
  Forall (is_heater_equip (coordinator_data rt)) ids →
  extra_state_attributes_loop ids extra rt
    = (Returns (merged_attributes (coordinator_data rt) ids extra), rt).
Proof.
  revert extra. induction ids as [|i ids IH]; intros extra Hall; [done|].
  apply Forall_cons in Hall as [(cfg & tel & Hi) Hall].
  rewrite merged_attributes_cons. unfold equipment_attributes at 1.
  rewrite Hi. simpl.
  rewrite (bind_returns _ _ _ _ _ (coordinator_data_item_Some _ _ _ Hi)).
  rewrite (bind_returns (as_heater_equip _) _ rt (cfg, tel) rt) by done.
  by rewrite (IH _ Hall).
Qed.

Lemma dom_merged_attributes tree ids extra :
  Forall (is_heater_equip tree) ids →
  dom (merged_attributes tree ids extra)
    = dom extra ∪ list_to_set (all_attribute_keys tree ids).
Proof.
  revert extra. induction ids as [|i ids IH]; intros extra Hall.
  - unfold all_attribute_keys. simpl. set_solver.
  - apply Forall_cons in Hall as [Hi Hall].
    rewrite merged_attributes_cons, all_attribute_keys_cons, (IH _ Hall).
    unfold dict_or.
    rewrite dom_union_L, (dom_equipment_attributes _ _ Hi), list_to_set_app_L.
    set_solver.
Qed.

(** Entries whose keys no later element contributes survive the loop. *)
Lemma merged_attributes_preserves tree ids extra m :
  m ⊆ extra →
  (∀ i k, i ∈ ids → k ∈ dom m → k ∉ dom (equipment_attributes tree i)) →
  m ⊆ merged_attributes tree ids extra.
Proof.
  revert extra. induction ids as [|i ids IH]; intros extra Hsub Hfresh; [done|].
  rewrite merged_attributes_cons. apply IH.
  - unfold dict_or. apply map_subseteq_spec. intros k v Hk.
    apply lookup_union_Some_raw. right. split.
    + apply not_elem_of_dom. apply (Hfresh i); [apply list_elem_of_here|].
      apply elem_of_dom. by exists v.
    + by apply (lookup_weaken m).
  - intros j k Hj. apply Hfresh. by apply list_elem_of_further.
Qed.

(** With pairwise different lower-cased names, each configured element
    finds its own five entries in the result. *)
Lemma merged_attributes_own tree ids extra i :
  Forall (is_heater_equip tree) ids →
  NoDup ((λ j, lower (equipment_name tree j)) <$> ids) →
  i ∈ ids →
  equipment_attributes tree i ⊆ merged_attributes tree ids extra.
Proof.
  revert extra. induction ids as [|j ids IH]; intros extra Hall Hnd Hi.
  { by apply elem_of_nil in Hi. }
  apply Forall_cons in Hall as [Hj Hall].
  rewrite fmap_cons in Hnd. apply NoDup_cons in Hnd as [Hfresh Hnd].
  apply elem_of_cons in Hi as [-> | Hi].
  - rewrite merged_attributes_cons. apply merged_attributes_preserves.
    + unfold dict_or. apply map_union_subseteq_l.
    + intros i' k Hi' Hk.
      assert (is_heater_equip tree i') as Hequip.
      { by eapply Forall_forall in Hall. }
      rewrite (dom_equipment_attributes _ _ Hj) in Hk.
      rewrite (dom_equipment_attributes _ _ Hequip).
      rewrite elem_of_list_to_set in *.
      apply (attribute_keys_disjoint _ _ _) with (2 := Hk).
      intros Heq. apply Hfresh. apply list_elem_of_fmap.
      exists i'. by split.
  - rewrite merged_attributes_cons. by apply IH.
Qed.

(** Every entry of the result was in the initial dict or is the entry of
    a configured element. *)
Lemma merged_attributes_lookup tree ids extra k v :
  merged_attributes tree ids extra !! k = Some v →
  extra !! k = Some v ∨
  ∃ i, i ∈ ids ∧ equipment_attributes tree i !! k = Some v.
Proof.
  revert extra. induction ids as [|i ids IH]; intros extra H; [by left|].
  rewrite merged_attributes_cons in H. apply IH in H as [H|(j & Hj & H)].
  - unfold dict_or in H. apply lookup_union_Some_raw in H as [H|[_ H]].
    + right. exists i. split; [apply list_elem_of_here | done].
    + by left.
  - right. exists j. split; [by apply list_elem_of_further | done].
Qed.

(** The five entries of one element, key by key. *)
Lemma heater_equipment_attributes_entries name system_id msp_config telemetry :
  let prefix := heater_prefix name in
  let attrs :=
    heater_equipment_attributes prefix system_id msp_config telemetry in
  attrs !! (prefix +:+ "_enabled") = Some (MSPHeaterEquip.enabled msp_config) ∧
  attrs !! (prefix +:+ "_system_id") = Some (PyInt system_id) ∧
  attrs !! (prefix +:+ "_bow_id")
    = Some (PyInt (MSPHeaterEquip.bow_id msp_config)) ∧
  attrs !! (prefix +:+ "_state")
    = Some (PyStr (pretty (TelemetryHeater.state telemetry))) ∧
  attrs !! (prefix +:+ "_sensor_temp")
    = Some (PyInt (TelemetryHeater.temp telemetry)).
Proof.
  intros prefix attrs. subst attrs. unfold heater_equipment_attributes.
  assert (∀ a b, a ∈ attribute_suffixes → b ∈ attribute_suffixes → a ≠ b →
                 prefix +:+ a ≠ prefix +:+ b) as Hne.
  { intros a b Ha Hb Hab Heq. by apply prefixed_key_inj in Heq as [_ ?]. }
  assert (∀ a, a ∈ ["_enabled"; "_system_id"; "_bow_id"; "_state"; "_sensor_temp"]
               → a ∈ attribute_suffixes) as Hin by done.
  repeat apply conj;
    repeat first
      [ apply lookup_insert_eq
      | rewrite lookup_insert_ne;
        [| apply Hne; [apply Hin; set_solver | apply Hin; set_solver | discriminate] ] ].
Qed.

Lemma extra_state_attributes_run self rt msp_config telemetry :
  coordinator_data rt !! system_id self
    = Some (EntityIndexHeater msp_config telemetry) →
  Forall (is_heater_equip (coordinator_data rt)) (heater_equipment_ids self) →
  extra_state_attributes self rt
    = (Returns
         (merged_attributes (coordinator_data rt) (heater_equipment_ids self)
            {[ "solar_set_point" :=
                 PyInt (MSPVirtualHeater.solar_set_point msp_config) ]}),
       rt).
Proof.
  intros Hd Hall. unfold extra_state_attributes.
  rewrite (bind_returns _ _ _ _ _ (data_heater _ _ _ _ Hd)).
  rewrite (extra_state_attributes_loop_run _ _ _ Hall).
  unfold dict_or, OmniLogicEntity.extra_state_attributes.
  by rewrite (right_id_L ∅ (∪)).
Qed.

Lemma solar_set_point_survives tree ids v :
  Forall (is_heater_equip tree) ids →
  merged_attributes tree ids {[ "solar_set_point" := v ]} !! "solar_set_point"
    = Some v.
Proof.
  intros Hall.
  apply (lookup_weaken ({[ "solar_set_point" := v ]} : gmap string PyVal));
    [apply lookup_singleton_eq|].
  apply merged_attributes_preserves; [done|].
  intros i k Hi Hk. rewrite dom_singleton_L in Hk.
  apply elem_of_singleton in Hk as ->.
  assert (is_heater_equip tree i) as Hequip by (by eapply Forall_forall in Hall).
  rewrite (dom_equipment_attributes _ _ Hequip), elem_of_list_to_set.
  apply solar_set_point_not_attribute_key.
Qed.

Lemma length_all_attribute_keys tree ids :
  length (all_attribute_keys tree ids) = (5 * length ids)%nat.
Proof.
  induction ids as [|i ids IH]; [done|].
  rewrite all_attribute_keys_cons, length_app, IH.
  unfold attribute_keys. rewrite length_fmap. simpl. lia.
Qed.

Lemma all_attribute_keys_NoDup tree ids :
  NoDup ((λ j, lower (equipment_name tree j)) <$> ids) →
  NoDup (all_attribute_keys tree ids).
Proof.
  intros Hnd. unfold all_attribute_keys. apply NoDup_bind.
  - intros i j k Hi Hj Hki Hkj.
    destruct (decide (lower (equipment_name tree i)
                        = lower (equipment_name tree j))) as [Heq|Hne].
    + apply list_elem_of_lookup in Hi as [a Ha], Hj as [b Hb].
      assert (a = b) as ->; [|congruence].
      apply (NoDup_lookup _ a b (lower (equipment_name tree i)) Hnd).
      * by rewrite list_lookup_fmap, Ha.
      * by rewrite list_lookup_fmap, Hb, Heq.
    + by destruct (attribute_keys_disjoint _ _ _ Hne Hki).
  - intros i _. apply attribute_keys_NoDup.
  - by apply NoDup_fmap_1 in Hnd.
Qed.

(** C8, amended.  Heating elements whose lower-cased names differ
    contribute disjoint keys.  So when the configured elements have
    pairwise different lower-cased names, every element finds its own five
    entries in the extended attributes, none overwritten by another
    element, and the dict has one key for the solar set-point and five for
    each element. *)
Theorem distinct_lowered_names_keep_groups_apart :
  (∀ n1 n2 k,
     lower n1 ≠ lower n2 → k ∈ attribute_keys n1 → k ∉ attribute_keys n2) ∧
  (∀ self rt msp_config telemetry,
     coordinator_data rt !! system_id self
       = Some (EntityIndexHeater msp_config telemetry) →
     Forall (is_heater_equip (coordinator_data rt)) (heater_equipment_ids self) →
     NoDup ((λ j, lower (equipment_name (coordinator_data rt) j))
              <$> heater_equipment_ids self) →
     groups_disjoint (coordinator_data rt) (heater_equipment_ids self) ∧
     ∃ attrs,
       extra_state_attributes self rt = (Returns attrs, rt) ∧
       (∀ i, i ∈ heater_equipment_ids self →
             equipment_attributes (coordinator_data rt) i ⊆ attrs) ∧
       size attrs = (1 + 5 * length (heater_equipment_ids self))%nat).
Proof.
  split; [apply attribute_keys_disjoint|].
  intros self rt cfg tel Hd Hall Hnd. split.
  - intros i j k Hi Hj Hij. apply attribute_keys_disjoint.
    intros Heq. apply Hij.
    apply list_elem_of_lookup in Hi as [a Ha], Hj as [b Hb].
    assert (a = b) as ->; [|congruence].
    apply (NoDup_lookup _ a b
             (lower (equipment_name (coordinator_data rt) i)) Hnd).
    + by rewrite list_lookup_fmap, Ha.
    + by rewrite list_lookup_fmap, Hb, Heq.
  - eexists. split; [apply (extra_state_attributes_run _ _ _ _ Hd Hall)|].
    split.
    + intros i Hi. by apply merged_attributes_own.
    + rewrite <-size_dom, (dom_merged_attributes _ _ _ Hall), dom_singleton_L.
      rewrite size_union, size_singleton.
      * rewrite size_list_to_set by (by apply all_attribute_keys_NoDup).
        by rewrite length_all_attribute_keys.
      * intros k ->%elem_of_singleton Hk%elem_of_list_to_set.
        unfold all_attribute_keys in Hk.
        apply list_elem_of_bind in Hk as (i & Hk & _).
        by apply solar_set_point_not_attribute_key in Hk.
Qed.

(** * Further properties *)

(** ** What the reads depend on *)

Lemma reads_tree_ret {A} (a : A) : reads_tree (mret a).
Proof. by intros rt1 rt2 _ _. Qed.

Lemma reads_tree_raise {A} (e : Exn) : reads_tree (@raise A e).
Proof. by intros rt1 rt2 _ _. Qed.

Lemma reads_tree_bind {A B} (c : Py A) (k : A → Py B) :
  read_only c → reads_tree c → (∀ a, reads_tree (k a)) → reads_tree (c ≫= k).
Proof.
  intros Hro Hc Hk rt1 rt2 Ht Hu. unfold mbind, Py_bind.
  pose proof (Hro rt1) as H1. pose proof (Hro rt2) as H2.
  pose proof (Hc rt1 rt2 Ht Hu) as Ho.
  destruct (c rt1) as [o1 r1], (c rt2) as [o2 r2]. simpl in *. subst.
  destruct o2 as [a|e]; [by apply Hk | done].
Qed.

Lemma reads_tree_coordinator_data_item i : reads_tree (coordinator_data_item i).
Proof.
  intros rt1 rt2 Ht _.
  unfold coordinator_data_item, mbind, Py_bind, get_runtime. rewrite Ht.
  by destruct (coordinator_data rt2 !! i).
Qed.

Lemma reads_tree_get_system_config_units :
  reads_tree OmniLogicEntity.get_system_config_units.
Proof.
  intros rt1 rt2 _ Hu.
  unfold OmniLogicEntity.get_system_config_units, mbind, Py_bind, get_runtime.
  simpl. unfold mret, Py_ret. simpl. by rewrite Hu.
Qed.

Lemma reads_tree_as_heater d : reads_tree (as_heater d).
Proof. destruct d; simpl; auto using reads_tree_ret, reads_tree_raise. Qed.

Lemma reads_tree_as_heater_equip d : reads_tree (as_heater_equip d).
Proof. destruct d; simpl; auto using reads_tree_ret, reads_tree_raise. Qed.

Lemma reads_tree_as_bow d : reads_tree (as_bow d).
Proof. destruct d; simpl; auto using reads_tree_ret, reads_tree_raise. Qed.

Create HintDb py_tree.

#[local] Hint Resolve reads_tree_ret reads_tree_raise
  reads_tree_coordinator_data_item reads_tree_get_system_config_units
  reads_tree_as_heater reads_tree_as_heater_equip reads_tree_as_bow : py_tree.

Ltac reads_tree_tac :=
  repeat first
    [ progress eauto with py_tree
    | apply reads_tree_bind; [solve [eauto with py_read] | | intros ? ]
    | match goal with
      | |- reads_tree (if ?b then _ else _) => destruct b
      | |- reads_tree (let '(_, _) := ?p in _) => destruct p
      end ].

Lemma reads_tree_data self : reads_tree (OmniLogicEntity.data self).
Proof. unfold OmniLogicEntity.data. reads_tree_tac. Qed.

Lemma reads_tree_get_telemetry_by_systemid i :
  reads_tree (OmniLogicEntity.get_telemetry_by_systemid i).
Proof. unfold OmniLogicEntity.get_telemetry_by_systemid. reads_tree_tac. Qed.

#[local] Hint Resolve reads_tree_data reads_tree_get_telemetry_by_systemid
  : py_tree.

Lemma reads_tree_temperature_unit : reads_tree temperature_unit.
Proof. unfold temperature_unit. reads_tree_tac. Qed.

Lemma reads_tree_min_temp self : reads_tree (min_temp self).
Proof. unfold min_temp. reads_tree_tac. Qed.

Lemma reads_tree_max_temp self : reads_tree (max_temp self).
Proof. unfold max_temp. reads_tree_tac. Qed.

Lemma reads_tree_target_temperature self : reads_tree (target_temperature self).
Proof. unfold target_temperature. reads_tree_tac. Qed.

Lemma reads_tree_current_temperature self :
  reads_tree (current_temperature self).
Proof. unfold current_temperature. reads_tree_tac. Qed.

Lemma reads_tree_hvac_mode self : reads_tree (hvac_mode self).
Proof. unfold hvac_mode. reads_tree_tac. Qed.

#[local] Hint Resolve reads_tree_hvac_mode : py_tree.

Lemma reads_tree_hvac_action self : reads_tree (hvac_action self).
Proof. unfold hvac_action. reads_tree_tac. Qed.

Lemma reads_tree_current_operation self : reads_tree (current_operation self).
Proof. unfold current_operation. reads_tree_tac. Qed.

Lemma reads_tree_extra_state_attributes_loop ids acc :
  reads_tree (extra_state_attributes_loop ids acc).
Proof.
  revert acc. induction ids as [|i ids IH]; intros acc; simpl.
  - eauto with py_tree.
  - apply reads_tree_bind; [eauto with py_read | eauto with py_tree |].
    intros d.
    apply reads_tree_bind; [eauto with py_read | eauto with py_tree |].
    intros [cfg tel]. apply IH.
Qed.

#[local] Hint Resolve reads_tree_extra_state_attributes_loop : py_tree.

Lemma reads_tree_extra_state_attributes self :
  reads_tree (extra_state_attributes self).
Proof. unfold extra_state_attributes. reads_tree_tac. Qed.

(** X1.  What a read property returns or raises is decided by the
    device-state tree and the system units alone: two runtime states that
    agree on both give the same result for each of the nine properties,
    whatever [_hvac_mode], the requests sent, the log and the state writes
    are. *)
Theorem reads_depend_on_tree_and_units_only self rt1 rt2 :
  coordinator_data rt1 = coordinator_data rt2 →
  system_units rt1 = system_units rt2 →
  outcome temperature_unit rt1 = outcome temperature_unit rt2 ∧
  outcome (min_temp self) rt1 = outcome (min_temp self) rt2 ∧
  outcome (max_temp self) rt1 = outcome (max_temp self) rt2 ∧
  outcome (target_temperature self) rt1 = outcome (target_temperature self) rt2 ∧
  outcome (current_temperature self) rt1 = outcome (current_temperature self) rt2 ∧
  outcome (hvac_mode self) rt1 = outcome (hvac_mode self) rt2 ∧
  outcome (hvac_action self) rt1 = outcome (hvac_action self) rt2 ∧
  outcome (current_operation self) rt1 = outcome (current_operation self) rt2 ∧
  outcome (extra_state_attributes self) rt1
    = outcome (extra_state_attributes self) rt2.
Proof.
  intros Ht Hu. unfold outcome. repeat apply conj.
  - by apply reads_tree_temperature_unit.
  - by apply reads_tree_min_temp.
  - by apply reads_tree_max_temp.
  - by apply reads_tree_target_temperature.
  - by apply reads_tree_current_temperature.
  - by apply reads_tree_hvac_mode.
  - by apply reads_tree_hvac_action.
  - by apply reads_tree_current_operation.
  - by apply reads_tree_extra_state_attributes.
Qed.

(** X2.  The three views of the enabled flag never disagree:
    [current_operation] is "on" exactly when [hvac_mode] is HEAT and exactly
    when [hvac_action] is HEATING, it is "off" exactly when they are OFF,
    and the three raise the same exception or none. *)
Theorem operation_mode_action_agree self rt :
  (outcome (current_operation self) rt = Returns STATE_ON
     ↔ outcome (hvac_mode self) rt = Returns HVACMode.HEAT) ∧
  (outcome (hvac_mode self) rt = Returns HVACMode.HEAT
     ↔ outcome (hvac_action self) rt = Returns HVACAction.HEATING) ∧
  (outcome (current_operation self) rt = Returns STATE_OFF
     ↔ outcome (hvac_mode self) rt = Returns HVACMode.OFF) ∧
  (outcome (hvac_mode self) rt = Returns HVACMode.OFF
     ↔ outcome (hvac_action self) rt = Returns HVACAction.OFF) ∧
  (∀ e, outcome (current_operation self) rt = Raises e
          ↔ outcome (hvac_mode self) rt = Raises e) ∧
  (∀ e, outcome (hvac_mode self) rt = Raises e
          ↔ outcome (hvac_action self) rt = Raises e).
Proof.
  unfold outcome, hvac_action, current_operation, hvac_mode.
  unfold mbind, Py_bind.
  destruct (OmniLogicEntity.data self rt) as [[[cfg tel]|e] rt']; simpl.
  - unfold mret, Py_ret; simpl.
    destruct (py_truthy (TelemetryVirtualHeater.enabled tel)); simpl;
      repeat apply conj; intros; try split; intros;
      first [done | discriminate].
  - repeat apply conj; intros; try split; intros;
      first [discriminate | congruence].
Qed.

(** ** What the commands change *)

Lemma data_not_heater self rt :
  (∀ cfg tel, coordinator_data rt !! system_id self ≠ Some (EntityIndexHeater cfg tel)) →
  ∃ e, OmniLogicEntity.data self rt = (Raises e, rt).
Proof.
  intros Hno. unfold OmniLogicEntity.data.
  destruct (coordinator_data rt !! system_id self) as [d|] eqn:Hd.
  - rewrite (bind_returns _ _ _ _ _ (coordinator_data_item_Some _ _ _ Hd)).
    destruct d as [cfg tel| |]; [by destruct (Hno cfg tel) | by eexists..].
  - eexists. apply bind_raises. by apply coordinator_data_item_None.
Qed.

(** Writing one entry: the record of the adapter is a virtual heater and
    is written back with the attribute assigned, or nothing is written and
    the call raises. *)
Lemma set_telemetry_single_cases self key value rt :
  (∃ e, OmniLogicEntity.set_telemetry self [(key, value)] rt = (Raises e, rt)) ∨
  (∃ cfg tel tel',
     coordinator_data rt !! system_id self = Some (EntityIndexHeater cfg tel) ∧
     OmniLogicEntity.setattr_telemetry tel key value rt = (Returns tel', rt) ∧
     OmniLogicEntity.set_telemetry self [(key, value)] rt
       = (Returns tt,
          set_coordinator_data
            (<[system_id self := EntityIndexHeater cfg tel']> (coordinator_data rt))
            rt)).
Proof.
  destruct (coordinator_data rt !! system_id self) as [[cfg tel| |]|] eqn:Hd.
  2-4: left; destruct (data_not_heater self rt) as [e He];
    [intros ??; congruence | exists e; simpl; by apply bind_raises].
  simpl. rewrite (bind_returns _ _ _ _ _ (data_heater _ _ _ _ Hd)).
  pose proof (setattr_telemetry_read_only tel key value rt) as Hs.
  destruct (OmniLogicEntity.setattr_telemetry tel key value rt)
    as [[tel'|e] rt0] eqn:Es; simpl in Hs; subst rt0.
  - right. exists cfg, tel, tel'. repeat split; [done|].
    by rewrite (bind_returns _ _ _ _ _ Es).
  - left. exists e. by rewrite (bind_raises _ _ _ _ _ Es).
Qed.

(** The course of [async_set_temperature]: it raises before the request,
    or the request for [int(temperature)] is sent and raises, or it is sent
    and completes and the set-point is written. *)
Lemma async_set_temperature_spec omni_api self kwargs rt :
  (∃ e, async_set_temperature omni_api self kwargs rt = (Raises e, rt)) ∨
  (∃ v n,
     kwargs !! ATTR_TEMPERATURE = Some v ∧ py_int v = Returns n ∧
     let req := async_set_heater (bow_id self) (system_id self) n (unit_of rt) in
     (∃ e, omni_api req = Some e ∧
           async_set_temperature omni_api self kwargs rt
             = (Raises e, add_api_request req rt)) ∨
     (omni_api req = None ∧
      async_set_temperature omni_api self kwargs rt
        = OmniLogicEntity.set_telemetry self [("current_set_point", PyInt n)]
            (add_api_request req rt))).
Proof.
  unfold async_set_temperature.
  destruct (kwargs !! ATTR_TEMPERATURE) as [v|] eqn:Hk.
  2: { left. eexists. apply bind_raises. unfold kwargs_item. by rewrite Hk. }
  assert (∀ r, kwargs_item kwargs ATTR_TEMPERATURE r = (Returns v, r)) as Hitem.
  { intros r. unfold kwargs_item. by rewrite Hk. }
  rewrite (bind_returns _ _ _ _ _ (Hitem _)).
  destruct (py_int v) as [n|e] eqn:Hn.
  2: { left. exists e. by apply bind_raises. }
  assert (∀ r, lift_outcome (Returns n) r = (Returns n, r)) as Hint by done.
  rewrite (bind_returns _ _ _ _ _ (Hint _)).
  rewrite (bind_returns _ _ _ _ _ (temperature_unit_run _)).
  right. exists v, n. split; [done|]. split; [done|].
  set (req := async_set_heater (bow_id self) (system_id self) n (unit_of rt)).
  cbv zeta.
  destruct (omni_api req) as [e|] eqn:Hapi.
  { left. exists e. split; [done|].
    by rewrite (bind_raises _ _ _ _ _ (await_omni_api_raises _ _ _ _ Hapi)). }
  right. split; [done|].
  rewrite (bind_returns _ _ _ _ _ (await_omni_api_ok _ _ _ Hapi)).
  rewrite (bind_returns _ _ _ _ _ (Hitem _)). rewrite Hn.
  by rewrite (bind_returns _ _ _ _ _ (Hint _)).
Qed.

(** The course of a recognised mode change: [_hvac_mode] is assigned and
    the request sent; it raises, or it completes and the enabled flag is
    written and a state write requested. *)
Lemma enable_branch_spec omni_api self mode enable text rt :
  let req := async_set_heater_enable (bow_id self) (system_id self) enable in
  let rt1 := add_api_request req (set__hvac_mode mode rt) in
  (∃ e, omni_api req = Some e ∧
        enable_branch omni_api self mode enable text rt = (Raises e, rt1)) ∨
  (omni_api req = None ∧
   ((∃ e, OmniLogicEntity.set_telemetry self [("enabled", PyStr text)] rt1
            = (Raises e, rt1) ∧
          enable_branch omni_api self mode enable text rt = (Raises e, rt1)) ∨
    (∃ cfg tel,
       coordinator_data rt !! system_id self = Some (EntityIndexHeater cfg tel) ∧
       enable_branch omni_api self mode enable text rt
         = (Returns tt,
            add_ha_state_write
              (set_coordinator_data
                 (<[system_id self :=
                      EntityIndexHeater cfg
                        (TelemetryVirtualHeater.set_enabled
                           (OmniLogicEntity.enabled_flag (PyStr text)) tel)]>
                    (coordinator_data rt)) rt1))))).
Proof.
  intros req rt1.
  destruct (omni_api req) as [e|] eqn:Hapi.
  { left. exists e. split; [done|]. by apply enable_branch_api_raises. }
  right. split; [done|].
  destruct (coordinator_data rt !! system_id self) as [[cfg tel| |]|] eqn:Hd.
  1: { right. exists cfg, tel. split; [done|]. by apply enable_branch_run. }
  all: left; destruct (data_not_heater self rt1) as [e He];
    [intros ??; simpl; congruence|];
    exists e; unfold enable_branch;
    rewrite (bind_returns get_runtime _ rt rt rt) by done;
    rewrite (bind_returns (put_runtime _) _ rt tt (set__hvac_mode mode rt)) by done;
    rewrite (bind_returns _ _ _ _ _ (await_omni_api_ok _ _ _ Hapi));
    fold req; fold rt1;
    assert (OmniLogicEntity.set_telemetry self [("enabled", PyStr text)] rt1
              = (Raises e, rt1)) as Hset
      by (simpl; by apply bind_raises);
    split; [done | by rewrite (bind_raises _ _ _ _ _ Hset)].
Qed.

Lemma async_set_hvac_mode_branch omni_api self mode :
  mode ∈ _attr_hvac_modes →
  ∃ text,
    async_set_hvac_mode omni_api self mode
      = enable_branch omni_api self mode (bool_decide (mode = HVACMode.HEAT)) text.
Proof.
  unfold _attr_hvac_modes. rewrite !elem_of_cons, elem_of_nil.
  intros [-> | [-> | []]].
  - exists "no". apply async_set_hvac_mode_off.
  - exists "yes". apply async_set_hvac_mode_heat.
Qed.

Lemma async_set_hvac_mode_unrecognized omni_api self mode rt :
  mode ∉ _attr_hvac_modes →
  async_set_hvac_mode omni_api self mode rt
    = (Returns tt,
       add_log_record
         (mkLog ERROR ("Unrecognized hvac mode: " +:+ HVACMode.value mode)) rt).
Proof.
  intros Hm. unfold async_set_hvac_mode.
  rewrite !bool_decide_eq_false_2; [done|..];
    intros ->; apply Hm; unfold _attr_hvac_modes; set_solver.
Qed.

Lemma enable_branch_read omni_api self mode enable text flag rt :
  OmniLogicEntity.enabled_flag (PyStr text) = PyBool flag →
  outcome (enable_branch omni_api self mode enable text) rt = Returns tt →
  outcome (hvac_mode self) (final (enable_branch omni_api self mode enable text) rt)
    = Returns (if flag then HVACMode.HEAT else HVACMode.OFF).
Proof.
  intros Hflag. unfold outcome, final.
  destruct (enable_branch_spec omni_api self mode enable text rt)
    as [(e & _ & ->)|(_ & [(e & _ & ->)|(cfg & tel & Hd & ->)])];
    [discriminate | discriminate |].
  intros _. cbn [fst snd].
  rewrite (hvac_mode_run _ _ cfg
             (TelemetryVirtualHeater.set_enabled
                (OmniLogicEntity.enabled_flag (PyStr text)) tel));
    [| apply lookup_insert_eq].
  rewrite Hflag. by destruct flag.
Qed.

(** C2.  When [async_set_hvac_mode] completes successfully with HEAT, an
    immediate read of [hvac_mode], on the state the command leaves and
    with no refresh in between, returns HEAT; with OFF it returns OFF.
    The command does complete when the adapter's record is in the cached
    tree and the request is accepted, and the cached enabled flag is then
    true after HEAT and false after OFF. *)
Theorem hvac_mode_read_after_set omni_api self rt :
  (outcome (async_set_hvac_mode omni_api self HVACMode.HEAT) rt = Returns tt →
   outcome (hvac_mode self)
     (final (async_set_hvac_mode omni_api self HVACMode.HEAT) rt)
     = Returns HVACMode.HEAT) ∧
  (outcome (async_set_hvac_mode omni_api self HVACMode.OFF) rt = Returns tt →
   outcome (hvac_mode self)
     (final (async_set_hvac_mode omni_api self HVACMode.OFF) rt)
     = Returns HVACMode.OFF) ∧
  (∀ msp_config telemetry,
     coordinator_data rt !! system_id self
       = Some (EntityIndexHeater msp_config telemetry) →
     (omni_api (async_set_heater_enable (bow_id self) (system_id self) true)
        = None →
      let rt' := final (async_set_hvac_mode omni_api self HVACMode.HEAT) rt in
      outcome (async_set_hvac_mode omni_api self HVACMode.HEAT) rt = Returns tt ∧
      coordinator_data rt' !! system_id self
        = Some (EntityIndexHeater msp_config
                  (TelemetryVirtualHeater.set_enabled (PyBool true) telemetry))) ∧
     (omni_api (async_set_heater_enable (bow_id self) (system_id self) false)
        = None →
      let rt' := final (async_set_hvac_mode omni_api self HVACMode.OFF) rt in
      outcome (async_set_hvac_mode omni_api self HVACMode.OFF) rt = Returns tt ∧
      coordinator_data rt' !! system_id self
        = Some (EntityIndexHeater msp_config
                  (TelemetryVirtualHeater.set_enabled (PyBool false) telemetry)))).
Proof.
  split; [|split].
  - rewrite async_set_hvac_mode_heat.
    by apply (enable_branch_read _ _ _ _ "yes" true).
  - rewrite async_set_hvac_mode_off.
    by apply (enable_branch_read _ _ _ _ "no" false).
  - intros cfg tel Hd. split; intros Hapi rt'; subst rt'; unfold outcome, final.
    + rewrite async_set_hvac_mode_heat.
      rewrite (enable_branch_run _ _ _ _ _ _ _ _ Hd Hapi). cbn [fst snd].
      split; [done|]. simpl. apply lookup_insert_eq.
    + rewrite async_set_hvac_mode_off.
      rewrite (enable_branch_run _ _ _ _ _ _ _ _ Hd Hapi). cbn [fst snd].
      split; [done|]. simpl. apply lookup_insert_eq.
Qed.

Lemma hvac_mode_read_after_set_witness :
  outcome (hvac_mode pool_heater)
    (final (async_set_hvac_mode api_ok pool_heater HVACMode.OFF) pool)
    = Returns HVACMode.OFF.
Proof.
  destruct (hvac_mode_read_after_set api_ok pool_heater pool) as (_ & Hoff & _).
  apply Hoff. reflexivity.
Defined.

Lemma min_temp_run self rt msp_config telemetry :
  coordinator_data rt !! system_id self
    = Some (EntityIndexHeater msp_config telemetry) →
  min_temp self rt = (Returns (MSPVirtualHeater.min_temp msp_config), rt).
Proof.
  intros H. unfold min_temp.
  by rewrite (bind_returns _ _ _ _ _ (data_heater _ _ _ _ H)).
Qed.

Lemma max_temp_run self rt msp_config telemetry :
  coordinator_data rt !! system_id self
    = Some (EntityIndexHeater msp_config telemetry) →
  max_temp self rt = (Returns (MSPVirtualHeater.max_temp msp_config), rt).
Proof.
  intros H. unfold max_temp.
  by rewrite (bind_returns _ _ _ _ _ (data_heater _ _ _ _ H)).
Qed.

(** [current_temperature] looks at the record of the body of water only. *)
Lemma current_temperature_lookup self rt1 rt2 :
  coordinator_data rt1 !! bow_id self = coordinator_data rt2 !! bow_id self →
  outcome (current_temperature self) rt1 = outcome (current_temperature self) rt2.
Proof.
  intros H.
  unfold outcome, current_temperature, OmniLogicEntity.get_telemetry_by_systemid,
    coordinator_data_item, mbind, Py_bind, get_runtime.
  rewrite H. destruct (coordinator_data rt2 !! bow_id self) as [[| |]|]; done.
Qed.

Lemma touches_own_telemetry_only_intro self cmd rt :
  own_telemetry_update self (coordinator_data rt)
    (coordinator_data (final cmd rt)) →
  system_units (final cmd rt) = system_units rt →
  touches_own_telemetry_only self cmd rt.
Proof.
  intros Hup Hu. unfold touches_own_telemetry_only.
  split; [done|]. split; [done|].
  destruct Hup as [Heq|(cfg & tel & tel' & Hd & Heq)].
  - split; [by rewrite Heq|]. unfold outcome.
    split; [by apply reads_tree_min_temp|].
    split; [by apply reads_tree_max_temp|].
    intros _. apply current_temperature_lookup. by rewrite Heq.
  - assert (coordinator_data (final cmd rt) !! system_id self
              = Some (EntityIndexHeater cfg tel')) as Hd'.
    { rewrite Heq. apply lookup_insert_eq. }
    split; [intros i Hi; rewrite Heq; by apply lookup_insert_ne|].
    unfold outcome.
    rewrite (min_temp_run _ _ _ _ Hd), (min_temp_run _ _ _ _ Hd').
    rewrite (max_temp_run _ _ _ _ Hd), (max_temp_run _ _ _ _ Hd').
    split; [done|]. split; [done|].
    intros Hne. apply current_temperature_lookup.
    rewrite Heq. by apply lookup_insert_ne.
Qed.

Lemma set_telemetry_single_update self key value rt :
  let rt' := (OmniLogicEntity.set_telemetry self [(key, value)] rt).2 in
  own_telemetry_update self (coordinator_data rt) (coordinator_data rt') ∧
  system_units rt' = system_units rt.
Proof.
  destruct (set_telemetry_single_cases self key value rt)
    as [[e ->]|(cfg & tel & tel' & Hd & _ & ->)]; simpl.
  - split; [by left | done].
  - split; [|done]. right. by exists cfg, tel, tel'.
Qed.

(** X3.  Whatever they are given and however they end, the two commands
    change the cached tree in the telemetry of the adapter's own record
    only: every other record and the system units are as before, the
    configuration of the own record is kept, so [min_temp] and [max_temp]
    give what they gave, and [current_temperature] too when the body of
    water is another record. *)
Theorem commands_touch_own_telemetry_only omni_api self rt :
  (∀ kwargs,
     touches_own_telemetry_only self
       (async_set_temperature omni_api self kwargs) rt) ∧
  (∀ mode,
     touches_own_telemetry_only self
       (async_set_hvac_mode omni_api self mode) rt).
Proof.
  split.
  - intros kwargs. apply touches_own_telemetry_only_intro; unfold final.
    + destruct (async_set_temperature_spec omni_api self kwargs rt)
        as [[e ->]|(v & n & _ & _ & [(e & _ & ->)|(_ & ->)])];
        [by left | by left |].
      apply (set_telemetry_single_update self "current_set_point" (PyInt n)
               (add_api_request _ rt)).
    + destruct (async_set_temperature_spec omni_api self kwargs rt)
        as [[e ->]|(v & n & _ & _ & [(e & _ & ->)|(_ & ->)])];
        [done | done |].
      apply (set_telemetry_single_update self "current_set_point" (PyInt n)
               (add_api_request _ rt)).
  - intros mode. apply touches_own_telemetry_only_intro; unfold final;
      destruct (decide (mode ∈ _attr_hvac_modes)) as [Hm|Hm].
    + destruct (async_set_hvac_mode_branch omni_api self mode Hm) as [text ->].
      destruct (enable_branch_spec omni_api self mode
                  (bool_decide (mode = HVACMode.HEAT)) text rt)
        as [(e & _ & ->)|(_ & [(e & _ & ->)|(cfg & tel & Hd & ->)])];
        [by left | by left |].
      right.
      by exists cfg, tel,
        (TelemetryVirtualHeater.set_enabled
           (OmniLogicEntity.enabled_flag (PyStr text)) tel).
    + rewrite (async_set_hvac_mode_unrecognized _ _ _ _ Hm). by left.
    + destruct (async_set_hvac_mode_branch omni_api self mode Hm) as [text ->].
      by destruct (enable_branch_spec omni_api self mode
                     (bool_decide (mode = HVACMode.HEAT)) text rt)
        as [(e & _ & ->)|(_ & [(e & _ & ->)|(cfg & tel & Hd & ->)])].
    + by rewrite (async_set_hvac_mode_unrecognized _ _ _ _ Hm).
Qed.

(** X4.  The two commands write different attributes.  Setting the
    temperature never changes what [hvac_mode], [hvac_action] and
    [current_operation] give, and changing the mode never changes what
    [target_temperature] gives, whatever the input and however the command
    ends. *)
Theorem commands_keep_each_others_attribute omni_api self rt :
  (∀ kwargs,
     let rt' := final (async_set_temperature omni_api self kwargs) rt in
     outcome (hvac_mode self) rt' = outcome (hvac_mode self) rt ∧
     outcome (hvac_action self) rt' = outcome (hvac_action self) rt ∧
     outcome (current_operation self) rt' = outcome (current_operation self) rt) ∧
  (∀ mode,
     let rt' := final (async_set_hvac_mode omni_api self mode) rt in
     outcome (target_temperature self) rt' = outcome (target_temperature self) rt).
Proof.
  split.
  - intros kwargs rt'. subst rt'. unfold final, outcome.
    destruct (async_set_temperature_spec omni_api self kwargs rt)
      as [[e ->]|(v & n & _ & _ & [(e & _ & ->)|(_ & ->)])];
      [done | | ].
    { repeat apply conj;
        [apply reads_tree_hvac_mode | apply reads_tree_hvac_action
        | apply reads_tree_current_operation]; done. }
    destruct (set_telemetry_single_cases self "current_set_point" (PyInt n)
                (add_api_request
                   (async_set_heater (bow_id self) (system_id self) n (unit_of rt))
                   rt)) as [[e ->]|(cfg & tel & tel' & Hd & Hset & ->)].
    { repeat apply conj;
        [apply reads_tree_hvac_mode | apply reads_tree_hvac_action
        | apply reads_tree_current_operation]; done. }
    injection Hset as <-. simpl in Hd. cbn [fst snd].
    set (rt2 := set_coordinator_data _ _).
    assert (coordinator_data rt2 !! system_id self
              = Some (EntityIndexHeater cfg
                        (TelemetryVirtualHeater.set_current_set_point (PyInt n) tel)))
      as Hd2 by apply lookup_insert_eq.
    rewrite (hvac_mode_run _ _ _ _ Hd), (hvac_mode_run _ _ _ _ Hd2).
    rewrite (hvac_action_run _ _ _ _ Hd), (hvac_action_run _ _ _ _ Hd2).
    unfold current_operation.
    rewrite (bind_returns _ _ _ _ _ (data_heater _ _ _ _ Hd)).
    by rewrite (bind_returns _ _ _ _ _ (data_heater _ _ _ _ Hd2)).
  - intros mode rt'. subst rt'. unfold final, outcome.
    destruct (decide (mode ∈ _attr_hvac_modes)) as [Hm|Hm].
    + destruct (async_set_hvac_mode_branch omni_api self mode Hm) as [text ->].
      destruct (enable_branch_spec omni_api self mode
                  (bool_decide (mode = HVACMode.HEAT)) text rt)
        as [(e & _ & ->)|(_ & [(e & _ & ->)|(cfg & tel & Hd & ->)])].
      1-2: by apply reads_tree_target_temperature.
      cbn [fst snd]. set (rt2 := add_ha_state_write _).
      assert (coordinator_data rt2 !! system_id self
                = Some (EntityIndexHeater cfg
                          (TelemetryVirtualHeater.set_enabled
                             (OmniLogicEntity.enabled_flag (PyStr text)) tel)))
        as Hd2 by apply lookup_insert_eq.
      by rewrite (target_temperature_run _ _ _ _ Hd),
        (target_temperature_run _ _ _ _ Hd2).
    + rewrite (async_set_hvac_mode_unrecognized _ _ _ _ Hm).
      by apply reads_tree_target_temperature.
Qed.

(** X5.  Setting the temperature never asks the host for a state write,
    never logs and never assigns [_hvac_mode]; it sends no request or the
    single request [async_set_heater] for the adapter's own body of water
    and system id, with [int(temperature)] and the current unit. *)
Theorem set_temperature_side_effects omni_api self kwargs rt :
  let rt' := final (async_set_temperature omni_api self kwargs) rt in
  ha_state_writes rt' = ha_state_writes rt ∧
  log_records rt' = log_records rt ∧
  _hvac_mode rt' = _hvac_mode rt ∧
  (api_requests rt' = api_requests rt ∨
   ∃ v n, kwargs !! ATTR_TEMPERATURE = Some v ∧ py_int v = Returns n ∧
          api_requests rt'
            = api_requests rt
              ++ [async_set_heater (bow_id self) (system_id self) n (unit_of rt)]).
Proof.
  intros rt'. subst rt'. unfold final.
  destruct (async_set_temperature_spec omni_api self kwargs rt)
    as [[e ->]|(v & n & Hk & Hn & [(e & _ & ->)|(_ & ->)])].
  - repeat split; by left.
  - repeat split. right. by exists v, n.
  - destruct (set_telemetry_frame self [("current_set_point", PyInt n)]
                (add_api_request
                   (async_set_heater (bow_id self) (system_id self) n (unit_of rt))
                   rt)) as [d ->].
    repeat split. right. by exists v, n.
Qed.

(** X6.  A mode change sends a request exactly when the mode is one of the
    advertised [_attr_hvac_modes].  Then it is the single request
    [async_set_heater_enable] for the adapter's own ids, with [True] for
    HEAT and [False] for OFF, [_hvac_mode] holds the mode, nothing is
    logged, and the host is asked for one state write if the call returns
    and for none if it raises.  For any other mode no request is sent. *)
Theorem set_hvac_mode_side_effects omni_api self mode rt :
  let rt' := final (async_set_hvac_mode omni_api self mode) rt in
  (mode ∈ _attr_hvac_modes →
     api_requests rt'
       = api_requests rt
         ++ [async_set_heater_enable (bow_id self) (system_id self)
               (bool_decide (mode = HVACMode.HEAT))] ∧
     _hvac_mode rt' = Some mode ∧
     log_records rt' = log_records rt ∧
     (outcome (async_set_hvac_mode omni_api self mode) rt = Returns tt →
      ha_state_writes rt' = S (ha_state_writes rt)) ∧
     (∀ e, outcome (async_set_hvac_mode omni_api self mode) rt = Raises e →
           ha_state_writes rt' = ha_state_writes rt)) ∧
  (mode ∉ _attr_hvac_modes → api_requests rt' = api_requests rt).
Proof.
  intros rt'. subst rt'. unfold final, outcome. split; intros Hm.
  - destruct (async_set_hvac_mode_branch omni_api self mode Hm) as [text ->].
    destruct (enable_branch_spec omni_api self mode
                (bool_decide (mode = HVACMode.HEAT)) text rt)
      as [(e & _ & ->)|(_ & [(e & _ & ->)|(cfg & tel & Hd & ->)])];
      simpl; repeat split; done.
  - by rewrite (async_set_hvac_mode_unrecognized _ _ _ _ Hm).
Qed.

Lemma set_hvac_mode_side_effects_witness :
  api_requests (final (async_set_hvac_mode api_ok pool_heater HVACMode.OFF) pool)
    = [async_set_heater_enable 1 4 false] ∧
  ha_state_writes (final (async_set_hvac_mode api_ok pool_heater HVACMode.OFF) pool)
    = 1%nat.
Proof.
  destruct (set_hvac_mode_side_effects api_ok pool_heater HVACMode.OFF pool)
    as [H _].
  destruct H as (Hreq & _ & _ & Hw & _).
  - unfold _attr_hvac_modes. apply list_elem_of_here.
  - split; [exact Hreq | apply Hw; reflexivity].
Defined.

(** Which numbers [int] refuses: the floats that are NaN or infinite. *)
Lemma py_int_raises v :
  (∃ e, py_int v = Raises e) ↔
  ∃ f, v = NFloat f ∧ (Prim2SF f = S754_nan ∨ ∃ s, Prim2SF f = S754_infinity s).
Proof.
  split.
  - intros [e He]. destruct v as [z|f]; [done|]. exists f. split; [done|].
    simpl in He. unfold float_trunc in He.
    destruct (Prim2SF f) as [s|s| |s m ex]; try done; eauto.
  - intros (f & -> & [H|[s H]]); simpl; unfold float_trunc; rewrite H; eauto.
Qed.

(** X7.  [int] refuses a temperature exactly when it is a float that is
    NaN or infinite ([ValueError] for NaN, [OverflowError] for an
    infinity).  With such a temperature the command raises that exception
    before anything happens: no request is sent and nothing is written. *)
Theorem set_temperature_not_a_finite_number :
  (∀ v, (∃ e, py_int v = Raises e) ↔
        ∃ f, v = NFloat f ∧
             (Prim2SF f = S754_nan ∨ ∃ s, Prim2SF f = S754_infinity s)) ∧
  (∀ omni_api self kwargs rt v e,
     kwargs !! ATTR_TEMPERATURE = Some v →
     py_int v = Raises e →
     async_set_temperature omni_api self kwargs rt = (Raises e, rt)) ∧
  py_int (NFloat nan)
    = Raises (ValueError "cannot convert float NaN to integer") ∧
  py_int (NFloat neg_infinity)
    = Raises (OverflowError "cannot convert float infinity to integer").
Proof.
  split; [apply py_int_raises|]. split; [|split; by vm_compute].
  intros omni_api self kwargs rt v e Hk Hn. unfold async_set_temperature.
  assert (kwargs_item kwargs ATTR_TEMPERATURE rt = (Returns v, rt)) as Hitem.
  { unfold kwargs_item. by rewrite Hk. }
  rewrite (bind_returns _ _ _ _ _ Hitem). apply bind_raises.
  unfold lift_outcome. by rewrite Hn.
Qed.

Lemma set_temperature_not_a_finite_number_witness :
  async_set_temperature api_ok pool_heater {[ "temperature" := NFloat nan ]} pool
    = (Raises (ValueError "cannot convert float NaN to integer"), pool).
Proof.
  destruct set_temperature_not_a_finite_number as (_ & H & _).
  apply (H api_ok pool_heater {[ "temperature" := NFloat nan ]} pool (NFloat nan));
    reflexivity.
Defined.

(** ** How the commands compose *)

Lemma then_returns {A B} (c : Py A) (k : Py B) rt a rt' :
  c rt = (Returns a, rt') → (c ;; k) rt = k rt'.
Proof. intros H. unfold mbind, Py_bind. by rewrite H. Qed.

Lemma async_set_hvac_mode_run omni_api self mode rt msp_config telemetry :
  mode ∈ _attr_hvac_modes →
  coordinator_data rt !! system_id self
    = Some (EntityIndexHeater msp_config telemetry) →
  omni_api (async_set_heater_enable (bow_id self) (system_id self)
              (bool_decide (mode = HVACMode.HEAT))) = None →
  async_set_hvac_mode omni_api self mode rt
    = (Returns tt,
       add_ha_state_write
         (set_coordinator_data
            (<[system_id self :=
                 EntityIndexHeater msp_config
                   (TelemetryVirtualHeater.set_enabled
                      (PyBool (bool_decide (mode = HVACMode.HEAT))) telemetry)]>
               (coordinator_data rt))
            (add_api_request
               (async_set_heater_enable (bow_id self) (system_id self)
                  (bool_decide (mode = HVACMode.HEAT)))
               (set__hvac_mode mode rt)))).
Proof.
  unfold _attr_hvac_modes. rewrite !elem_of_cons, elem_of_nil.
  intros [-> | [-> | []]] Hd Hapi.
  - rewrite async_set_hvac_mode_off. by apply enable_branch_run.
  - rewrite async_set_hvac_mode_heat. by apply enable_branch_run.
Qed.

(** X8.  With the adapter's record in the tree and the command API
    accepting every request, a temperature change and a mode change give
    the same cached tree in either order: the own record with the new
    set-point and the enabled flag true for HEAT and false for OFF, all
    else as before. *)
Theorem commands_commute_on_the_tree omni_api self kwargs mode rt v n
    msp_config telemetry :
  kwargs !! ATTR_TEMPERATURE = Some v →
  py_int v = Returns n →
  mode ∈ _attr_hvac_modes →
  coordinator_data rt !! system_id self
    = Some (EntityIndexHeater msp_config telemetry) →
  (∀ req, omni_api req = None) →
  let set_temperature := async_set_temperature omni_api self kwargs in
  let set_mode := async_set_hvac_mode omni_api self mode in
  let tree' :=
    <[system_id self :=
        EntityIndexHeater msp_config
          (TelemetryVirtualHeater.mk (PyInt n)
             (PyBool (bool_decide (mode = HVACMode.HEAT))))]>
      (coordinator_data rt) in
  (set_temperature ;; set_mode) rt
    = (Returns tt,
       mkRuntime tree' (system_units rt)
         (api_requests rt
            ++ [async_set_heater (bow_id self) (system_id self) n (unit_of rt);
                async_set_heater_enable (bow_id self) (system_id self)
                  (bool_decide (mode = HVACMode.HEAT))])
         (log_records rt) (S (ha_state_writes rt)) (Some mode)) ∧
  (set_mode ;; set_temperature) rt
    = (Returns tt,
       mkRuntime tree' (system_units rt)
         (api_requests rt
            ++ [async_set_heater_enable (bow_id self) (system_id self)
                  (bool_decide (mode = HVACMode.HEAT));
                async_set_heater (bow_id self) (system_id self) n (unit_of rt)])
         (log_records rt) (S (ha_state_writes rt)) (Some mode)).
Proof.
  intros Hk Hn Hm Hd Hapi set_temperature set_mode tree'.
  subst set_temperature set_mode tree'. split.
  - rewrite (then_returns _ _ _ _ _
               (async_set_temperature_run _ _ _ _ _ _ _ _ Hk Hn Hd (Hapi _))).
    rewrite (async_set_hvac_mode_run _ _ _ _ msp_config
               (TelemetryVirtualHeater.set_current_set_point (PyInt n) telemetry)
               Hm); [| apply lookup_insert_eq | apply Hapi].
    unfold add_ha_state_write, set_coordinator_data, add_api_request,
      set__hvac_mode. simpl.
    rewrite insert_insert_eq, <-app_assoc. done.
  - rewrite (then_returns _ _ _ _ _
               (async_set_hvac_mode_run _ _ _ _ _ _ Hm Hd (Hapi _))).
    rewrite (async_set_temperature_run _ _ kwargs _ v n msp_config
               (TelemetryVirtualHeater.set_enabled
                  (PyBool (bool_decide (mode = HVACMode.HEAT))) telemetry) Hk Hn);
      [| apply lookup_insert_eq | apply Hapi].
    unfold add_ha_state_write, set_coordinator_data, add_api_request,
      set__hvac_mode. simpl.
    rewrite insert_insert_eq, <-app_assoc. done.
Qed.

Lemma commands_commute_on_the_tree_witness :
  coordinator_data
    (final (async_set_temperature api_ok pool_heater {[ "temperature" := NFloat 30.2 ]} ;;
            async_set_hvac_mode api_ok pool_heater HVACMode.HEAT) pool)
  = coordinator_data
      (final (async_set_hvac_mode api_ok pool_heater HVACMode.HEAT ;;
              async_set_temperature api_ok pool_heater {[ "temperature" := NFloat 30.2 ]})
         pool).
Proof.
  destruct (commands_commute_on_the_tree api_ok pool_heater
              {[ "temperature" := NFloat 30.2 ]} HVACMode.HEAT pool
              (NFloat 30.2) 30 (MSPVirtualHeater.mk "Heater" 18 40 30)
              (TelemetryVirtualHeater.mk (PyInt 28) (PyBool true)))
    as [H1 H2].
  - reflexivity.
  - vm_compute. reflexivity.
  - unfold _attr_hvac_modes. apply list_elem_of_further, list_elem_of_here.
  - reflexivity.
  - reflexivity.
  - unfold final. rewrite H1, H2. reflexivity.
Defined.

(** X9.  Of two temperature changes in a row the last one wins: with the
    adapter's record in the tree and the command API accepting both
    requests, the cached tree is the one the second change alone gives,
    and both requests were sent, in order. *)
Theorem set_temperature_last_wins omni_api self kwargs1 kwargs2 rt v1 n1 v2 n2
    msp_config telemetry :
  kwargs1 !! ATTR_TEMPERATURE = Some v1 → py_int v1 = Returns n1 →
  kwargs2 !! ATTR_TEMPERATURE = Some v2 → py_int v2 = Returns n2 →
  coordinator_data rt !! system_id self
    = Some (EntityIndexHeater msp_config telemetry) →
  (∀ req, omni_api req = None) →
  let both :=
    async_set_temperature omni_api self kwargs1 ;;
    async_set_temperature omni_api self kwargs2 in
  outcome both rt = Returns tt ∧
  coordinator_data (final both rt)
    = coordinator_data (final (async_set_temperature omni_api self kwargs2) rt) ∧
  outcome (target_temperature self) (final both rt) = Returns (PyInt n2) ∧
  api_requests (final both rt)
    = api_requests rt
      ++ [async_set_heater (bow_id self) (system_id self) n1 (unit_of rt);
          async_set_heater (bow_id self) (system_id self) n2 (unit_of rt)].
Proof.
  intros Hk1 Hn1 Hk2 Hn2 Hd Hapi both. subst both. unfold outcome, final.
  rewrite (then_returns _ _ _ _ _
             (async_set_temperature_run _ _ _ _ _ _ _ _ Hk1 Hn1 Hd (Hapi _))).
  rewrite (async_set_temperature_run _ _ kwargs2 _ v2 n2 msp_config
             (TelemetryVirtualHeater.set_current_set_point (PyInt n1) telemetry)
             Hk2 Hn2); [| apply lookup_insert_eq | apply Hapi].
  rewrite (async_set_temperature_run _ _ _ _ _ _ _ _ Hk2 Hn2 Hd (Hapi _)).
  cbn [fst snd]. split; [done|]. split; [|split].
  - simpl. by rewrite insert_insert_eq.
  - rewrite (target_temperature_run _ _ msp_config
               (TelemetryVirtualHeater.set_current_set_point (PyInt n2)
                  (TelemetryVirtualHeater.set_current_set_point (PyInt n1) telemetry)));
      [done|]. apply lookup_insert_eq.
  - simpl. by rewrite <-app_assoc.
Qed.

Lemma set_temperature_last_wins_witness :
  outcome (target_temperature pool_heater)
    (final (async_set_temperature api_ok pool_heater {[ "temperature" := NFloat 30.2 ]} ;;
            async_set_temperature api_ok pool_heater {[ "temperature" := NInt 25 ]})
       pool)
  = Returns (PyInt 25).
Proof.
  destruct (set_temperature_last_wins api_ok pool_heater
              {[ "temperature" := NFloat 30.2 ]} {[ "temperature" := NInt 25 ]} pool
              (NFloat 30.2) 30 (NInt 25) 25 (MSPVirtualHeater.mk "Heater" 18 40 30)
              (TelemetryVirtualHeater.mk (PyInt 28) (PyBool true)))
    as (_ & _ & H & _);
    [reflexivity | vm_compute; reflexivity | reflexivity | reflexivity
    | reflexivity | reflexivity | exact H].
Defined.

(** ** More on the extended attributes *)

Lemma merged_attributes_app tree l1 l2 extra :
  merged_attributes tree (l1 ++ l2) extra
    = merged_attributes tree l2 (merged_attributes tree l1 extra).
Proof. unfold merged_attributes. apply foldl_app. Qed.

Lemma extra_state_attributes_loop_app l1 l2 extra rt :
  Forall (is_heater_equip (coordinator_data rt)) l1 →
  extra_state_attributes_loop (l1 ++ l2) extra rt
    = extra_state_attributes_loop l2
        (merged_attributes (coordinator_data rt) l1 extra) rt.
Proof.
  revert extra. induction l1 as [|i l1 IH]; intros extra Hall; [done|].
  apply Forall_cons in Hall as [(cfg & tel & Hi) Hall].
  rewrite merged_attributes_cons. unfold equipment_attributes at 1.
  rewrite Hi. simpl.
  rewrite (bind_returns _ _ _ _ _ (coordinator_data_item_Some _ _ _ Hi)).
  rewrite (bind_returns (as_heater_equip _) _ rt (cfg, tel) rt) by done.
  by rewrite (IH _ Hall).
Qed.

(** X10.  If a configured heating element is missing from the cached tree,
    reading the extended attributes raises [KeyError] with the first
    missing id and yields no partial dict. *)
Theorem extra_state_attributes_missing_element self rt msp_config telemetry
    before i after :
  coordinator_data rt !! system_id self
    = Some (EntityIndexHeater msp_config telemetry) →
  heater_equipment_ids self = before ++ i :: after →
  Forall (is_heater_equip (coordinator_data rt)) before →
  coordinator_data rt !! i = None →
  extra_state_attributes self rt = (Raises (KeyError (PyInt i)), rt).
Proof.
  intros Hd Hids Hall Hi. unfold extra_state_attributes.
  rewrite (bind_returns _ _ _ _ _ (data_heater _ _ _ _ Hd)), Hids.
  rewrite (extra_state_attributes_loop_app _ _ _ _ Hall). simpl.
  apply bind_raises. by apply coordinator_data_item_None.
Qed.

(** X11.  In the extended attributes a later element wins: a configured
    element finds its own five entries in the dict whenever no element
    after it in the list has the same lower-cased name.  The last
    configured element always does. *)
Theorem later_element_wins self rt msp_config telemetry before i after :
  coordinator_data rt !! system_id self
    = Some (EntityIndexHeater msp_config telemetry) →
  heater_equipment_ids self = before ++ i :: after →
  Forall (is_heater_equip (coordinator_data rt)) (heater_equipment_ids self) →
  (∀ j, j ∈ after →
        lower (equipment_name (coordinator_data rt) j)
          ≠ lower (equipment_name (coordinator_data rt) i)) →
  ∃ attrs,
    extra_state_attributes self rt = (Returns attrs, rt) ∧
    equipment_attributes (coordinator_data rt) i ⊆ attrs.
Proof.
  intros Hd Hids Hall Hlater.
  eexists. split; [apply (extra_state_attributes_run _ _ _ _ Hd Hall)|].
  rewrite Hids in *. rewrite merged_attributes_app, merged_attributes_cons.
  apply Forall_app in Hall as [_ Hall].
  apply Forall_cons in Hall as [Hi Hafter].
  apply merged_attributes_preserves.
  - unfold dict_or. apply map_union_subseteq_l.
  - intros j k Hj Hk.
    assert (is_heater_equip (coordinator_data rt) j) as Hequip.
    { by eapply Forall_forall in Hafter. }
    rewrite (dom_equipment_attributes _ _ Hi) in Hk.
    rewrite (dom_equipment_attributes _ _ Hequip).
    rewrite elem_of_list_to_set in *.
    apply (attribute_keys_disjoint _ _ _) with (2 := Hk).
    intros Heq. by apply (Hlater j).
Qed.

(** An element keeps its entries when no later element has its lower-cased
    name. *)
Lemma merged_attributes_later tree before i after extra :
  Forall (is_heater_equip tree) (before ++ i :: after) →
  (∀ j, j ∈ after →
        lower (equipment_name tree j) ≠ lower (equipment_name tree i)) →
  equipment_attributes tree i ⊆ merged_attributes tree (before ++ i :: after) extra.
Proof.
  intros Hall Hlater. rewrite merged_attributes_app, merged_attributes_cons.
  apply Forall_app in Hall as [_ Hall].
  apply Forall_cons in Hall as [Hi Hafter].
  apply merged_attributes_preserves.
  - unfold dict_or. apply map_union_subseteq_l.
  - intros j k Hj Hk.
    assert (is_heater_equip tree j) as Hequip.
    { by eapply Forall_forall in Hafter. }
    rewrite (dom_equipment_attributes _ _ Hi) in Hk.
    rewrite (dom_equipment_attributes _ _ Hequip).
    rewrite elem_of_list_to_set in *.
    apply (attribute_keys_disjoint _ _ _) with (2 := Hk).
    intros Heq. by apply (Hlater j).
Qed.

(** With pairwise different lower-cased names the dict has the solar
    set-point and five keys for each element. *)
Lemma merged_attributes_size tree ids v :
  Forall (is_heater_equip tree) ids →
  NoDup ((λ j, lower (equipment_name tree j)) <$> ids) →
  size (merged_attributes tree ids {[ "solar_set_point" := v ]})
    = (1 + 5 * length ids)%nat.
Proof.
  intros Hall Hnd.
  rewrite <-size_dom, (dom_merged_attributes _ _ _ Hall), dom_singleton_L.
  rewrite size_union, size_singleton.
  - rewrite size_list_to_set by (by apply all_attribute_keys_NoDup).
    by rewrite length_all_attribute_keys.
  - intros k ->%elem_of_singleton Hk%elem_of_list_to_set.
    unfold all_attribute_keys in Hk.
    apply list_elem_of_bind in Hk as (i & Hk & _).
    by apply solar_set_point_not_attribute_key in Hk.
Qed.

(** C7, amended.  With the adapter's record and every configured heating
    element in the cached tree, the extended attributes hold the solar
    set-point and, for each configured element, the five keys made of
    "omni_heater_", the element's lower-cased name and the endings
    _enabled, _system_id, _bow_id, _state and _sensor_temp: these keys and
    no other.  Every entry besides the solar set-point is the entry of a
    configured element, whose group holds its enabled flag, system id,
    body-of-water id, state text and sensor temperature.  Elements whose
    lower-cased names agree share one group: an element finds its own
    entries in the dict when no later element has its lower-cased name.
    When the lower-cased names are pairwise different there is exactly one
    group of five keys for each element, with the element's own values.
    With no configured element the dict is the solar set-point alone. *)
Theorem extra_state_attributes_groups self rt msp_config telemetry :
  coordinator_data rt !! system_id self
    = Some (EntityIndexHeater msp_config telemetry) →
  Forall (is_heater_equip (coordinator_data rt)) (heater_equipment_ids self) →
  let solar := PyInt (MSPVirtualHeater.solar_set_point msp_config) in
  ∃ attrs,
    extra_state_attributes self rt = (Returns attrs, rt) ∧
    dom attrs
      = {[ "solar_set_point" ]}
        ∪ list_to_set
            (all_attribute_keys (coordinator_data rt) (heater_equipment_ids self)) ∧
    attrs !! "solar_set_point" = Some solar ∧
    (∀ i, i ∈ heater_equipment_ids self →
       let prefix :=
         "omni_heater_" +:+ lower (equipment_name (coordinator_data rt) i) in
       attribute_keys (equipment_name (coordinator_data rt) i)
         = [prefix +:+ "_enabled"; prefix +:+ "_system_id"; prefix +:+ "_bow_id";
            prefix +:+ "_state"; prefix +:+ "_sensor_temp"] ∧
       NoDup (attribute_keys (equipment_name (coordinator_data rt) i)) ∧
       (∀ k, k ∈ attribute_keys (equipment_name (coordinator_data rt) i) →
             k ∈ dom attrs)) ∧
    (∀ k v, attrs !! k = Some v →
       (k = "solar_set_point" ∧ v = solar) ∨
       ∃ i, i ∈ heater_equipment_ids self ∧
            equipment_attributes (coordinator_data rt) i !! k = Some v) ∧
    (∀ i cfg tel,
       coordinator_data rt !! i = Some (EntityIndexHeaterEquip cfg tel) →
       let prefix := "omni_heater_" +:+ lower (MSPHeaterEquip.name cfg) in
       let group := equipment_attributes (coordinator_data rt) i in
       group !! (prefix +:+ "_enabled") = Some (MSPHeaterEquip.enabled cfg) ∧
       group !! (prefix +:+ "_system_id") = Some (PyInt i) ∧
       group !! (prefix +:+ "_bow_id") = Some (PyInt (MSPHeaterEquip.bow_id cfg)) ∧
       group !! (prefix +:+ "_state")
         = Some (PyStr (pretty (TelemetryHeater.state tel))) ∧
       group !! (prefix +:+ "_sensor_temp")
         = Some (PyInt (TelemetryHeater.temp tel))) ∧
    (∀ before i after,
       heater_equipment_ids self = before ++ i :: after →
       (∀ j, j ∈ after →
             lower (equipment_name (coordinator_data rt) j)
               ≠ lower (equipment_name (coordinator_data rt) i)) →
       equipment_attributes (coordinator_data rt) i ⊆ attrs) ∧
    (NoDup ((λ j, lower (equipment_name (coordinator_data rt) j))
              <$> heater_equipment_ids self) →
     one_group_per_element (coordinator_data rt) (heater_equipment_ids self) attrs) ∧
    (heater_equipment_ids self = [] → attrs = {[ "solar_set_point" := solar ]}).
Proof.
  intros Hd Hall solar.
  eexists. split; [apply (extra_state_attributes_run _ _ _ _ Hd Hall)|].
  fold solar. split; [|split; [|split; [|split; [|split; [|split; [|split]]]]]].
  - rewrite (dom_merged_attributes _ _ _ Hall). by rewrite dom_singleton_L.
  - by apply solar_set_point_survives.
  - intros i Hi prefix. split; [done|]. split; [apply attribute_keys_NoDup|].
    intros k Hk. rewrite (dom_merged_attributes _ _ _ Hall).
    apply elem_of_union_r, elem_of_list_to_set.
    unfold all_attribute_keys. apply list_elem_of_bind. by exists i.
  - intros k v Hk. apply merged_attributes_lookup in Hk as [Hk|Hk]; [|by right].
    left. by apply lookup_singleton_Some in Hk as [<- <-].
  - intros i cfg tel Hi prefix group. subst group.
    unfold equipment_attributes. rewrite Hi.
    apply heater_equipment_attributes_entries.
  - intros before i after Hids Hlater. rewrite Hids in *.
    by apply merged_attributes_later.
  - intros Hnd. split.
    + by apply merged_attributes_size.
    + intros i Hi. by apply merged_attributes_own.
  - by intros ->.
Qed.

(** ** Platform setup *)

Lemma add_log_records_nil rt : add_log_records [] rt = rt.
Proof. destruct rt. unfold add_log_records. simpl. by rewrite app_nil_r. Qed.

Lemma add_log_records_cons r rs rt :
  add_log_records rs (add_log_record r rt) = add_log_records (r :: rs) rt.
Proof.
  unfold add_log_records, add_log_record. simpl. by rewrite <-app_assoc.
Qed.

Lemma async_setup_entry_loop_run bow_id_of items ids entities rt :
  async_setup_entry_loop bow_id_of items ids entities rt
    = (Returns
         (entities ++
            ((λ item, OmniLogicClimateEntity__init__ (bow_id_of item.1) item.1 ids)
               <$> items)),
       add_log_records (setup_debug_line <$> items) rt).
Proof.
  revert entities rt. induction items as [|[i d] items IH]; intros entities rt.
  - simpl. by rewrite app_nil_r, add_log_records_nil.
  - simpl. unfold mbind at 1, Py_bind at 1.
    unfold _LOGGER_debug at 1, mbind at 1, Py_bind at 1, get_runtime, put_runtime.
    rewrite IH, <-app_assoc. simpl. by rewrite add_log_records_cons.
Qed.

Lemma omni_type_virt_heater d :
  omni_type d = VIRT_HEATER ↔ ∃ cfg tel, d = EntityIndexHeater cfg tel.
Proof. destruct d; split; intros H; try done; eauto; by destruct H as (?&?&?). Qed.

Lemma omni_type_heater_equip d :
  omni_type d = HEATER_EQUIP ↔ ∃ cfg tel, d = EntityIndexHeaterEquip cfg tel.
Proof. destruct d; split; intros H; try done; eauto; by destruct H as (?&?&?). Qed.

Lemma elem_of_heater_equipment_ids_of all_heaters i :
  i ∈ heater_equipment_ids_of all_heaters ↔
  ∃ d, (i, d) ∈ all_heaters ∧ omni_type (entity_data d) = HEATER_EQUIP.
Proof.
  unfold heater_equipment_ids_of. rewrite list_elem_of_fmap. split.
  - intros ([j d] & -> & [Ht Hin]%list_elem_of_filter). by exists d.
  - intros (d & Hin & Ht). exists (i, d). split; [done|].
    by apply list_elem_of_filter.
Qed.

Lemma elem_of_virtual_heater_ids all_heaters i :
  i ∈ (virtual_heater all_heaters).*1 ↔
  ∃ d, (i, d) ∈ all_heaters ∧ omni_type (entity_data d) = VIRT_HEATER.
Proof.
  unfold virtual_heater. rewrite list_elem_of_fmap. split.
  - intros ([j d] & -> & [Ht Hin]%list_elem_of_filter). by exists d.
  - intros (d & Hin & Ht). exists (i, d). split; [done|].
    by apply list_elem_of_filter.
Qed.

(** X12.  Setup makes one adapter for each virtual heater of [all_heaters],
    in dict order, with the dict key as its system id, and no adapter for
    anything else.  Every adapter is given the same list: the keys of all
    heater-equipment records, in dict order.  Setup logs one debug line
    for each adapter and leaves the rest of the runtime state as it was;
    distinct dict keys give adapters with distinct system ids. *)
Theorem async_setup_entry_entities bow_id_of all_heaters rt :
  ∃ entities,
    async_setup_entry bow_id_of all_heaters rt
      = (Returns entities,
         add_log_records (setup_debug_line <$> virtual_heater all_heaters) rt) ∧
    system_id <$> entities = (virtual_heater all_heaters).*1 ∧
    Forall (λ self, heater_equipment_ids self = heater_equipment_ids_of all_heaters)
      entities ∧
    (∀ i, i ∈ system_id <$> entities ↔
          ∃ d, (i, d) ∈ all_heaters ∧ omni_type (entity_data d) = VIRT_HEATER) ∧
    (∀ i, i ∈ heater_equipment_ids_of all_heaters ↔
          ∃ d, (i, d) ∈ all_heaters ∧ omni_type (entity_data d) = HEATER_EQUIP) ∧
    (NoDup all_heaters.*1 → NoDup (system_id <$> entities)).
Proof.
  eexists. split; [apply async_setup_entry_loop_run|]. simpl.
  assert (system_id <$>
            ((λ item : Z * IndexedEntity,
                OmniLogicClimateEntity__init__ (bow_id_of item.1) item.1
                  (heater_equipment_ids_of all_heaters))
               <$> virtual_heater all_heaters)
          = (virtual_heater all_heaters).*1) as Hids.
  { rewrite <-list_fmap_compose. by apply list_fmap_ext. }
  split; [done|]. split; [|split; [|split]].
  - apply Forall_fmap, Forall_forall. by intros item _.
  - intros i. rewrite Hids. apply elem_of_virtual_heater_ids.
  - apply elem_of_heater_equipment_ids_of.
  - intros Hnd. rewrite Hids. unfold virtual_heater.
    apply NoDup_fmap_fst.
    + intros i d1 d2 [_ H1]%list_elem_of_filter [_ H2]%list_elem_of_filter.
      apply list_elem_of_lookup in H1 as [a Ha], H2 as [b Hb].
      assert (a = b) as ->; [|congruence].
      apply (NoDup_lookup _ a b i Hnd).
      * by rewrite list_lookup_fmap, Ha.
      * by rewrite list_lookup_fmap, Hb.
    + apply NoDup_filter. by apply NoDup_fmap_1 in Hnd.
Qed.

Lemma async_setup_entry_entities_witness :
  ∃ entities,
    outcome (async_setup_entry (λ _, 1) pool_heaters) pool = Returns entities ∧
    NoDup (system_id <$> entities).
Proof.
  destruct (async_setup_entry_entities (λ _, 1) pool_heaters pool)
    as (entities & Hrun & _ & _ & _ & _ & Hnd).
  exists entities. split; [unfold outcome; by rewrite Hrun|].
  apply Hnd. change (NoDup [4; 5; 6]).
  repeat (apply NoDup_cons; split;
          [rewrite ?elem_of_cons, elem_of_nil; intros H; decompose [or] H;
           discriminate || done |]).
  apply NoDup_nil_2.
Defined.

(** X13.  The adapters setup makes fit the cached tree.  If [all_heaters]
    is a part of the tree, then for every adapter made the own record is a
    virtual heater of the tree, every configured heating element is a
    heater-equipment record of the tree and is not the adapter itself, and
    [hvac_mode] returns without raising.  Setup leaves the tree as it
    was. *)
Theorem setup_entities_can_be_read bow_id_of all_heaters rt entities rt' self :
  heaters_of_tree all_heaters (coordinator_data rt) →
  async_setup_entry bow_id_of all_heaters rt = (Returns entities, rt') →
  self ∈ entities →
  coordinator_data rt' = coordinator_data rt ∧
  (∃ cfg tel,
     coordinator_data rt' !! system_id self = Some (EntityIndexHeater cfg tel)) ∧
  Forall (is_heater_equip (coordinator_data rt')) (heater_equipment_ids self) ∧
  (system_id self ∉ heater_equipment_ids self) ∧
  (∃ mode, hvac_mode self rt' = (Returns mode, rt')).
Proof.
  intros Htree Hrun Hself.
  destruct (async_setup_entry_entities bow_id_of all_heaters rt)
    as (entities' & Hrun' & Hids & Hsame & Hvirt & Hequip & _).
  rewrite Hrun in Hrun'. injection Hrun' as <- ->.
  assert (coordinator_data
            (add_log_records (setup_debug_line <$> virtual_heater all_heaters) rt)
          = coordinator_data rt) as Hdata by done.
  rewrite Hdata. split; [done|].
  assert (∃ cfg tel, coordinator_data rt !! system_id self
                       = Some (EntityIndexHeater cfg tel)) as (cfg & tel & Hd).
  { destruct (proj1 (Hvirt (system_id self))) as (d & Hin & Ht).
    { apply list_elem_of_fmap. by exists self. }
    apply omni_type_virt_heater in Ht as (cfg & tel & Ht).
    exists cfg, tel. rewrite <-Ht. by apply Htree. }
  assert (Forall (is_heater_equip (coordinator_data rt)) (heater_equipment_ids self))
    as Hall.
  { rewrite Forall_forall in Hsame. rewrite (Hsame _ Hself).
    apply Forall_forall. intros i (d & Hin & Ht)%Hequip.
    apply omni_type_heater_equip in Ht as (c & t & Ht).
    exists c, t. rewrite <-Ht. by apply Htree. }
  split; [by exists cfg, tel|]. split; [done|]. split.
  - intros Hin. rewrite Forall_forall in Hall.
    destruct (Hall _ Hin) as (c & t & Hc). congruence.
  - eexists. by apply (hvac_mode_run _ _ cfg tel).
Qed.

Lemma setup_entities_can_be_read_witness :
  ∃ mode,
    hvac_mode (mkEntity 4 1 [5; 6])
      (add_log_records (setup_debug_line <$> virtual_heater pool_heaters) pool)
    = (Returns mode,
       add_log_records (setup_debug_line <$> virtual_heater pool_heaters) pool).
Proof.
  destruct (setup_entities_can_be_read (λ _, 1) pool_heaters pool
              [mkEntity 4 1 [5; 6]]
              (add_log_records (setup_debug_line <$> virtual_heater pool_heaters) pool)
              (mkEntity 4 1 [5; 6]))
    as (_ & _ & _ & _ & mode & Hrun).
  - intros i d Hin. unfold pool_heaters in Hin.
    repeat (apply elem_of_cons in Hin as [Hin|Hin];
            [injection Hin as -> ->; reflexivity|]).
    by apply elem_of_nil in Hin.
  - reflexivity.
  - apply list_elem_of_here.
  - by exists mode.
Defined.

(** X14.  No heating element is a supported state: if [all_heaters] holds
    no heater-equipment record, every adapter setup makes has an empty
    list of heating elements, and (with [all_heaters] a part of the cached
    tree) its extended attributes are the solar set-point alone. *)
Theorem setup_without_heater_equipment bow_id_of all_heaters rt entities rt' self :
  (∀ i d, (i, d) ∈ all_heaters → omni_type (entity_data d) ≠ HEATER_EQUIP) →
  heaters_of_tree all_heaters (coordinator_data rt) →
  async_setup_entry bow_id_of all_heaters rt = (Returns entities, rt') →
  self ∈ entities →
  heater_equipment_ids self = [] ∧
  ∃ msp_config telemetry,
    coordinator_data rt' !! system_id self
      = Some (EntityIndexHeater msp_config telemetry) ∧
    extra_state_attributes self rt'
      = (Returns
           {[ "solar_set_point" :=
                PyInt (MSPVirtualHeater.solar_set_point msp_config) ]},
         rt').
Proof.
  intros Hnone Htree Hrun Hself.
  destruct (setup_entities_can_be_read _ _ _ _ _ _ Htree Hrun Hself)
    as (_ & (cfg & tel & Hd) & Hall & _).
  destruct (async_setup_entry_entities bow_id_of all_heaters rt)
    as (entities' & Hrun' & _ & Hsame & _ & Hequip & _).
  rewrite Hrun in Hrun'. injection Hrun' as <- _.
  assert (heater_equipment_ids self = []) as Hempty.
  { rewrite Forall_forall in Hsame. rewrite (Hsame _ Hself).
    destruct (heater_equipment_ids_of all_heaters) as [|i ids] eqn:Hids; [done|].
    destruct (proj1 (Hequip i)) as (d & Hin & Ht); [apply list_elem_of_here|].
    by destruct (Hnone i d Hin). }
  split; [done|]. exists cfg, tel. split; [done|].
  rewrite (extra_state_attributes_run _ _ _ _ Hd Hall). by rewrite Hempty.
Qed.

End StrLower.

(** * The sample installations

    The names of the sample installations are ASCII, where [str.lower] is
    [ascii_lower]. *)

Lemma pool_equipment_in_tree :
  Forall (is_heater_equip pool_tree) (heater_equipment_ids pool_heater).
Proof.
  repeat apply Forall_cons_2; [| |apply Forall_nil_2].
  - eexists _, _. reflexivity.
  - eexists _, _. reflexivity.
Qed.

Lemma twin_equipment_in_tree :
  Forall (is_heater_equip twin_tree) (heater_equipment_ids pool_heater).
Proof.
  repeat apply Forall_cons_2; [| |apply Forall_nil_2].
  - eexists _, _. reflexivity.
  - eexists _, _. reflexivity.
Qed.

Lemma pool_names_differ :
  NoDup ((λ j, ascii_lower (equipment_name pool_tree j))
           <$> heater_equipment_ids pool_heater).
Proof.
  change (NoDup ["gas heater"; "solar"]).
  apply NoDup_cons. split; [|apply NoDup_singleton].
  intros Hin%list_elem_of_singleton. discriminate Hin.
Qed.

Lemma reads_depend_on_tree_and_units_only_witness :
  outcome (hvac_mode pool_heater)
    (mkRuntime pool_tree "Metric" [async_set_heater_enable 1 4 false]
       [mkLog ERROR "x"] 3 (Some HVACMode.OFF))
    = outcome (hvac_mode pool_heater) pool.
Proof.
  destruct (reads_depend_on_tree_and_units_only ascii_lower pool_heater
              (mkRuntime pool_tree "Metric" [async_set_heater_enable 1 4 false]
                 [mkLog ERROR "x"] 3 (Some HVACMode.OFF)) pool)
    as (_ & _ & _ & _ & _ & H & _); [reflexivity | reflexivity | exact H].
Defined.

(** C7 as stated fails: with two configured elements named "Gas Heater"
    and "gas heater" the dict has one group of five keys, not two, and the
    entries of the first element are not in it. *)
Lemma same_lowered_name_one_group :
  Forall (is_heater_equip twin_tree) (heater_equipment_ids pool_heater) ∧
  ∃ attrs,
    extra_state_attributes ascii_lower pool_heater twin_pool
      = (Returns attrs, twin_pool) ∧
    size attrs = 6%nat ∧
    ¬ (equipment_attributes ascii_lower twin_tree 5 ⊆ attrs) ∧
    ¬ one_group_per_element ascii_lower twin_tree
        (heater_equipment_ids pool_heater) attrs.
Proof.
  split; [apply twin_equipment_in_tree|].
  eexists. split.
  { apply (extra_state_attributes_run ascii_lower pool_heater twin_pool
             (MSPVirtualHeater.mk "Heater" 18 40 30)
             (TelemetryVirtualHeater.mk (PyInt 28) (PyBool true)));
      [reflexivity | apply twin_equipment_in_tree]. }
  assert (∀ attrs : gmap string PyVal,
            attrs !! "omni_heater_gas heater_system_id" = Some (PyInt 6) →
            ¬ (equipment_attributes ascii_lower twin_tree 5 ⊆ attrs)) as Hnot.
  { intros attrs H6 Hsub.
    assert (attrs !! "omni_heater_gas heater_system_id" = Some (PyInt 5)) as H5.
    { apply (lookup_weaken _ _ _ _ (eq_refl : equipment_attributes ascii_lower
               twin_tree 5 !! "omni_heater_gas heater_system_id"
               = Some (PyInt 5)) Hsub). }
    congruence. }
  split; [by vm_compute|]. split.
  - apply Hnot. by vm_compute.
  - intros [Hsize _]. vm_compute in Hsize. discriminate Hsize.
Qed.

Lemma extra_state_attributes_groups_witness :
  ∃ attrs,
    extra_state_attributes ascii_lower pool_heater pool = (Returns attrs, pool) ∧
    dom attrs
      = list_to_set
          ["solar_set_point";
           "omni_heater_gas heater_enabled"; "omni_heater_gas heater_system_id";
           "omni_heater_gas heater_bow_id"; "omni_heater_gas heater_state";
           "omni_heater_gas heater_sensor_temp";
           "omni_heater_solar_enabled"; "omni_heater_solar_system_id";
           "omni_heater_solar_bow_id"; "omni_heater_solar_state";
           "omni_heater_solar_sensor_temp"] ∧
    one_group_per_element ascii_lower pool_tree
      (heater_equipment_ids pool_heater) attrs.
Proof.
  destruct (extra_state_attributes_groups ascii_lower pool_heater pool
              (MSPVirtualHeater.mk "Heater" 18 40 30)
              (TelemetryVirtualHeater.mk (PyInt 28) (PyBool true)))
    as (attrs & Hrun & Hdom & _ & _ & _ & _ & _ & Hone & _).
  - reflexivity.
  - apply pool_equipment_in_tree.
  - exists attrs. split; [exact Hrun|]. split.
    + rewrite Hdom. reflexivity.
    + apply Hone. apply pool_names_differ.
Defined.

(** C8 as stated fails: two different configured elements named
    "Gas Heater" and "gas heater" contribute the same five keys, and the
    entries of the first are overwritten by those of the second. *)
Lemma same_lowered_name_groups_collide :
  ¬ groups_disjoint ascii_lower twin_tree (heater_equipment_ids pool_heater) ∧
  equipment_attributes ascii_lower twin_tree 5 !! "omni_heater_gas heater_system_id"
    = Some (PyInt 5) ∧
  ∃ attrs,
    outcome (extra_state_attributes ascii_lower pool_heater) twin_pool
      = Returns attrs ∧
    attrs !! "omni_heater_gas heater_system_id" = Some (PyInt 6) ∧
    size attrs = 6%nat.
Proof.
  split; [|split].
  - intros H.
    apply (H 5 6 "omni_heater_gas heater_enabled").
    + apply list_elem_of_here.
    + apply list_elem_of_further, list_elem_of_here.
    + done.
    + apply list_elem_of_here.
    + apply list_elem_of_here.
  - reflexivity.
  - eexists. split; [reflexivity|]. split; by vm_compute.
Qed.

Lemma distinct_lowered_names_keep_groups_apart_witness :
  ∃ attrs,
    extra_state_attributes ascii_lower pool_heater pool = (Returns attrs, pool) ∧
    equipment_attributes ascii_lower pool_tree 5 ⊆ attrs ∧
    size attrs = 11%nat.
Proof.
  destruct (distinct_lowered_names_keep_groups_apart ascii_lower) as [_ H].
  destruct (H pool_heater pool (MSPVirtualHeater.mk "Heater" 18 40 30)
              (TelemetryVirtualHeater.mk (PyInt 28) (PyBool true)))
    as (_ & attrs & Hrun & Hown & Hsize).
  - reflexivity.
  - apply pool_equipment_in_tree.
  - apply pool_names_differ.
  - exists attrs. split; [exact Hrun|]. split; [|exact Hsize].
    apply Hown. apply list_elem_of_here.
Defined.

Lemma extra_state_attributes_missing_element_witness :
  extra_state_attributes ascii_lower (mkEntity 4 1 [5; 7; 6]) pool
    = (Raises (KeyError (PyInt 7)), pool).
Proof.
  apply (extra_state_attributes_missing_element ascii_lower
           (mkEntity 4 1 [5; 7; 6]) pool
           (MSPVirtualHeater.mk "Heater" 18 40 30)
           (TelemetryVirtualHeater.mk (PyInt 28) (PyBool true)) [5] 7 [6]).
  - reflexivity.
  - reflexivity.
  - apply Forall_cons_2; [|apply Forall_nil_2]. eexists _, _. reflexivity.
  - reflexivity.
Defined.

Lemma later_element_wins_witness :
  ∃ attrs,
    extra_state_attributes ascii_lower pool_heater twin_pool
      = (Returns attrs, twin_pool) ∧
    equipment_attributes ascii_lower twin_tree 6 ⊆ attrs.
Proof.
  apply (later_element_wins ascii_lower pool_heater twin_pool
           (MSPVirtualHeater.mk "Heater" 18 40 30)
           (TelemetryVirtualHeater.mk (PyInt 28) (PyBool true)) [5] 6 []).
  - reflexivity.
  - reflexivity.
  - apply twin_equipment_in_tree.
  - intros j Hj. by apply elem_of_nil in Hj.
Defined.

Lemma setup_without_heater_equipment_witness :
  extra_state_attributes ascii_lower (mkEntity 4 1 [])
    (add_log_records (setup_debug_line <$> virtual_heater (take 1 pool_heaters)) pool)
  = (Returns {[ "solar_set_point" := PyInt 30 ]},
     add_log_records (setup_debug_line <$> virtual_heater (take 1 pool_heaters)) pool).
Proof.
  destruct (setup_without_heater_equipment ascii_lower (λ _, 1)
              (take 1 pool_heaters) pool [mkEntity 4 1 []]
              (add_log_records
                 (setup_debug_line <$> virtual_heater (take 1 pool_heaters)) pool)
              (mkEntity 4 1 []))
    as (_ & cfg & tel & Hd & Hrun).
  - intros i d Hin. simpl in Hin.
    apply elem_of_cons in Hin as [Hin|Hin]; [|by apply elem_of_nil in Hin].
    injection Hin as -> ->. discriminate.
  - intros i d Hin. simpl in Hin.
    apply elem_of_cons in Hin as [Hin|Hin]; [|by apply elem_of_nil in Hin].
    injection Hin as -> ->. reflexivity.
  - reflexivity.
  - apply list_elem_of_here.
  - rewrite Hrun. f_equal. f_equal. f_equal.
    assert (Some (EntityIndexHeater cfg tel)
            = Some (EntityIndexHeater (MSPVirtualHeater.mk "Heater" 18 40 30)
                      (TelemetryVirtualHeater.mk (PyInt 28) (PyBool true)))) as Heq.
    { rewrite <-Hd. reflexivity. }
    by injection Heq as -> _.
Defined.
